(** * OpenMIC-2018 XGBoost notebook: split partitioner, per-class data
      preparation and metric aggregation

    A shallow embedding of the notebook [1-modeling-xgb.ipynb]:
    - cell 24, the loop that sorts row numbers into [idx_train] and
      [idx_test] by sample key;
    - cell 25, the slicing of [X], [Y_true] and [Y_mask] by those indices;
    - cell 28, the per-instrument loop (mask selection, mean over time,
      label threshold, fit, predict, scoring) and the final averages.

    Numbers are exact rationals ([Qc]): numpy's [mean] and [>=] are given
    their arithmetic meaning, and the rounding of float64 sums is not part
    of the model.  Where the rounding decides a property, the averages are
    computed on float64 values as well (module [Float64]).  Python
    exceptions are values of [exn]; a computation that may raise returns a
    [result]. *)

From Stdlib Require Import QArith Qcanon.
From Stdlib Require PrimFloat Uint63.
From stdpp Require Import gmap strings list.

Local Open Scope string_scope.
Local Open Scope list_scope.
Local Open Scope nat_scope.

(** ** Exceptions and fallible computations *)

Inductive exn : Type :=
| RuntimeError (msg : string)
| IndexError (msg : string)
| ValueError (msg : string).

Inductive result (A : Type) : Type :=
| Ok (a : A)
| Raise (e : exn).
Arguments Ok {A} a.
Arguments Raise {A} e.

Definition rbind {A B} (m : result A) (k : A → result B) : result B :=
  match m with
  | Ok a => k a
  | Raise e => Raise e
  end.

Notation "x ←! m ; k" := (rbind m (λ x, k))
  (at level 20, m at level 100, k at level 200, right associativity,
   format "x  ←!  m ;  '/' k").
Notation "' p ←! m ; k" := (rbind m (λ x, match x with p => k end))
  (at level 20, p pattern, m at level 100, k at level 200,
   right associativity).

Definition raised {A} (r : result A) : Prop := ∃ e, r = Raise e.

Definition returned {A} (r : result A) : option A :=
  match r with
  | Ok a => Some a
  | Raise _ => None
  end.

(** ** Cell 24: the split partitioner *)

Module Partitioner.

(** [enumerate(sample_key)]: the rows paired with their position. *)
Fixpoint enumerate_from {A} (start : nat) (l : list A) : list (nat * A) :=
  match l with
  | [] => []
  | x :: l => (start, x) :: enumerate_from (S start) l
  end.

Definition enumerate {A} (l : list A) : list (nat * A) := enumerate_from 0 l.

(** The two growing Python lists. *)
Record split_state : Type := SplitState {
  idx_train : list nat;
  idx_test : list nat
}.

Definition numpy_index_msg : string :=
  "only integers, slices (`:`), ellipsis (`...`), numpy.newaxis (`None`) and integer or boolean arrays are valid indices".

(** [sample_key[n]] where [n] is a sample key, that is a string: numpy
    accepts no string as an index of a plain array and raises
    [IndexError], whatever the array holds. *)
Definition ndarray_getitem_str (a : list string) (n : string) : result string :=
  Raise (IndexError numpy_index_msg).

(** ['Unknown sample key={}! Abort!'.format(k)] *)
Definition unknown_key_msg (k : string) : string :=
  "Unknown sample key=" +:+ k +:+ "! Abort!".

Section Loop.
Variable sample_key : list string.
Variables train_set test_set : gset string.

(** One iteration of [for idx, n in enumerate(sample_key)].  In the [else]
    branch the argument of [format], [sample_key[n]], is evaluated before
    [RuntimeError] is built. *)
Definition body (st : split_state) (idx : nat) (n : string) : result split_state :=
  if decide (n ∈ train_set) then
    Ok (SplitState (idx_train st ++ [idx]) (idx_test st))
  else if decide (n ∈ test_set) then
    Ok (SplitState (idx_train st) (idx_test st ++ [idx]))
  else
    k ←! ndarray_getitem_str sample_key n;
    Raise (RuntimeError (unknown_key_msg k)).

(** The loop: the state it leaves behind and the exception that stopped
    it, if any.  The lists are mutated in place, so an exception leaves
    them as they were when it was raised. *)
Fixpoint loop (rows : list (nat * string)) (st : split_state)
  : split_state * option exn :=
  match rows with
  | [] => (st, None)
  | (idx, n) :: rows =>
      match body st idx n with
      | Ok st' => loop rows st'
      | Raise e => (st, Some e)
      end
  end.

Definition run_loop : split_state * option exn :=
  loop (enumerate sample_key) (SplitState [] []).

(** The whole cell: the two [np.asarray] casts are reached only when the
    loop ends without an exception. *)
Definition partition : result (list nat * list nat) :=
  match run_loop with
  | (st, None) => Ok (idx_train st, idx_test st)
  | (_, Some e) => Raise e
  end.
End Loop.

(** *** Row positions selected by a predicate on keys

    The vocabulary in which the partition is specified: the positions of
    the keys that satisfy [P], and the number of such keys in a prefix. *)

Section Rows.
Context (P : string → Prop) `{!∀ k, Decision (P k)}.

Fixpoint rows_of (start : nat) (keys : list string) : list nat :=
  match keys with
  | [] => []
  | k :: keys =>
      if decide (P k) then start :: rows_of (S start) keys
      else rows_of (S start) keys
  end.

Definition count_keys (keys : list string) : nat := length (filter P keys).
End Rows.

(** How the loop sorts a key: into the train rows, into the test rows (the
    [elif] is reached only by keys outside the train set), or nowhere. *)
Section Membership.
Variables train_set test_set : gset string.

Definition in_train (k : string) : Prop := k ∈ train_set.
Definition in_test (k : string) : Prop := k ∈ test_set.
Definition in_test_only (k : string) : Prop := (k ∉ train_set) ∧ (k ∈ test_set).
Definition known (k : string) : Prop := (k ∈ train_set) ∨ (k ∈ test_set).

#[global] Instance in_train_dec k : Decision (in_train k).
Proof. unfold in_train. apply _. Defined.
#[global] Instance in_test_dec k : Decision (in_test k).
Proof. unfold in_test. apply _. Defined.
#[global] Instance in_test_only_dec k : Decision (in_test_only k).
Proof. unfold in_test_only. apply _. Defined.
#[global] Instance known_dec k : Decision (known k).
Proof. unfold known. apply _. Defined.
End Membership.

End Partitioner.

(** ** The numpy operations the notebook uses *)

Module Numpy.

(** A number computed by [np.mean]: an exact rational, or [nan] when the
    mean is taken over nothing. *)
Inductive num : Type :=
| Num (q : Qc)
| NaN.

Definition Qc_of_nat (n : nat) : Qc := Qc_of_Z (Z.of_nat n).

Definition lift_lookup {A} (o : option A) : result A :=
  match o with
  | Some a => Ok a
  | None => Raise (IndexError "index is out of bounds")
  end.

(** [a[idx]] for an index array made by [np.asarray] from a Python list of
    row numbers.  [np.asarray([])] is an array of floats, which numpy
    refuses as an index; a row number past the end is refused as well. *)
Definition take_rows {A} (a : list A) (idx : list nat) : result (list A) :=
  match idx with
  | [] => Raise (IndexError "arrays used as indices must be of integer (or boolean) type")
  | _ => lift_lookup (mapM (λ i, a !! i) idx)
  end.

(** [m[:, c]] for a matrix with [ncols] columns. *)
Definition column {A} (ncols : nat) (m : list (list A)) (c : nat) : result (list A) :=
  if decide (c < ncols) then lift_lookup (mapM (λ row, row !! c) m)
  else Raise (IndexError "index is out of bounds").

Fixpoint select {A} (mask : list bool) (a : list A) : list A :=
  match mask, a with
  | b :: mask, x :: a => if b then x :: select mask a else select mask a
  | _, _ => []
  end.

(** [a[mask]] for a boolean array [mask]: the rows where it is set; the
    lengths must agree. *)
Definition bool_index {A} (a : list A) (mask : list bool) : result (list A) :=
  if decide (length mask = length a) then Ok (select mask a)
  else Raise (IndexError "boolean index did not match indexed array").

(** [m[mask, c]]: the entries of column [c] in the rows where [mask] is
    set. *)
Definition bool_index_column {A} (ncols : nat) (m : list (list A))
    (mask : list bool) (c : nat) : result (list A) :=
  rows ←! bool_index m mask;
  column ncols rows c.

(** [np.add.reduce] on a one-dimensional array. *)
Definition add_reduce (xs : list Qc) : Qc := foldl Qcplus 0%Qc xs.

(** [np.mean] of a one-dimensional sequence: the sum over the count, [nan]
    for an empty one. *)
Definition np_mean (xs : list Qc) : num :=
  match xs with
  | [] => NaN
  | _ => Num (add_reduce xs / Qc_of_nat (length xs))%Qc
  end.

(** [np.mean(a, axis=1)] for [a] of shape (n, T, D): in every clip the T
    slices are added up as vectors and the sum is divided by T. *)
Definition vadd (u v : list Qc) : list Qc := zip_with Qcplus u v.

Definition add_reduce_slices (D : nat) (clip : list (list Qc)) : list Qc :=
  foldl vadd (replicate D 0%Qc) clip.

Definition mean_over_time (T D : nat) (clip : list (list Qc)) : list num :=
  match T with
  | 0 => replicate D NaN
  | _ => (λ s, Num (s / Qc_of_nat T)%Qc) <$> add_reduce_slices D clip
  end.

Definition np_mean_axis1 (T D : nat) (a : list (list (list Qc))) : list (list num) :=
  mean_over_time T D <$> a.

(** [y >= 0.5] *)
Definition ge_half (y : Qc) : bool := bool_decide (Qcle (Q2Qc (1 # 2)) y).

End Numpy.

(** ** Cells 6, 25 and 28: the data and the per-instrument loop *)

Module Pipeline.
Import Numpy.

(** The arrays of [openmic-2018.npz] with their shape: [X] is N x T x D,
    [Y_true] and [Y_mask] are N x C, [sample_key] has N entries. *)
Record dataset : Type := Dataset {
  dimT : nat;
  dimD : nat;
  dimC : nat;
  X : list (list (list Qc));
  Y_true : list (list Qc);
  Y_mask : list (list bool);
  sample_key : list string
}.

Definition well_shaped (ds : dataset) : Prop :=
  length (X ds) = length (sample_key ds) ∧
  length (Y_true ds) = length (sample_key ds) ∧
  length (Y_mask ds) = length (sample_key ds) ∧
  Forall (λ clip, length clip = dimT ds ∧
                  Forall (λ v, length v = dimD ds) clip) (X ds) ∧
  Forall (λ row, length row = dimC ds) (Y_true ds) ∧
  Forall (λ row, length row = dimC ds) (Y_mask ds).

(** Cell 25: the six slices. *)
Record split_data : Type := SplitData {
  X_train : list (list (list Qc));
  X_test : list (list (list Qc));
  Y_true_train : list (list Qc);
  Y_true_test : list (list Qc);
  Y_mask_train : list (list bool);
  Y_mask_test : list (list bool)
}.

Definition slice (ds : dataset) (idx_train idx_test : list nat) : result split_data :=
  X_train ←! take_rows (X ds) idx_train;
  X_test ←! take_rows (X ds) idx_test;
  Y_true_train ←! take_rows (Y_true ds) idx_train;
  Y_true_test ←! take_rows (Y_true ds) idx_test;
  Y_mask_train ←! take_rows (Y_mask ds) idx_train;
  Y_mask_test ←! take_rows (Y_mask ds) idx_test;
  Ok (SplitData X_train X_test Y_true_train Y_true_test Y_mask_train Y_mask_test).

(** What the loop body hands to the classifier and to the scorer. *)
Record class_data : Type := ClassData {
  X_train_inst_sklearn : list (list num);
  Y_true_train_inst : list bool;
  X_test_inst_sklearn : list (list num);
  Y_true_test_inst : list bool
}.

(** Steps 1 and 2 of the loop body, in the order of the cell. *)
Definition prepare (T D C : nat) (sd : split_data) (inst_num : nat) : result class_data :=
  train_inst ←! column C (Y_mask_train sd) inst_num;
  test_inst ←! column C (Y_mask_test sd) inst_num;
  X_train_inst ←! bool_index (X_train sd) train_inst;
  let X_train_inst_sklearn := np_mean_axis1 T D X_train_inst in
  Y_train_sel ←! bool_index_column C (Y_true_train sd) train_inst inst_num;
  let Y_true_train_inst := ge_half <$> Y_train_sel in
  X_test_inst ←! bool_index (X_test sd) test_inst;
  let X_test_inst_sklearn := np_mean_axis1 T D X_test_inst in
  Y_test_sel ←! bool_index_column C (Y_true_test sd) test_inst inst_num;
  let Y_true_test_inst := ge_half <$> Y_test_sel in
  Ok (ClassData X_train_inst_sklearn Y_true_train_inst
                X_test_inst_sklearn Y_true_test_inst).

(** The value of [support] that the scorer returns next to the three
    scores; the notebook never reads it. *)
Definition support_t : Type := option (list nat).

Section Loop.
(** The libraries the cell calls: the XGBoost classifier with its fixed
    hyperparameters and seed, and scikit-learn's macro-averaged scorer.
    They are functions of their arguments and may raise. *)
Context {model : Type}.
Variable fit : list (list num) → list bool → result model.
Variable predict : model → list (list num) → result (list bool).
Variable precision_recall_fscore_support :
  list bool → list bool → result (Qc * Qc * Qc * support_t).

Variables T D C : nat.
Variable sd : split_data.

(** The containers created at the top of the cell. *)
Record run_state : Type := RunState {
  models : gmap string model;
  precision_lst : list Qc;
  recall_lst : list Qc;
  fscore_lst : list Qc;
  support_lst : list support_t
}.

Definition init_state : run_state := RunState ∅ [] [] [] [].

(** One iteration of [for instrument in tqdm(class_map)]; [inst_num] is
    [class_map[instrument]]. *)
Definition class_step (st : run_state) (instrument : string) (inst_num : nat)
  : result run_state :=
  d ←! prepare T D C sd inst_num;
  xgb_model ←! fit (X_train_inst_sklearn d) (Y_true_train_inst d);
  Y_pred_train ←! predict xgb_model (X_train_inst_sklearn d);
  Y_pred_test ←! predict xgb_model (X_test_inst_sklearn d);
  '(precision, recall, fscore, support) ←!
     precision_recall_fscore_support (Y_true_test_inst d) Y_pred_test;
  Ok (RunState (<[instrument := xgb_model]> (models st))
               (precision_lst st ++ [precision])
               (recall_lst st ++ [recall])
               (fscore_lst st ++ [fscore])
               (support_lst st)).

(** The loop over the items of the [class_map] dictionary, in its
    iteration order: the state it leaves and the exception that stopped
    it, if any.  There is no [try] in the cell. *)
Fixpoint class_loop (class_map : list (string * nat)) (st : run_state)
  : run_state * option exn :=
  match class_map with
  | [] => (st, None)
  | (instrument, inst_num) :: class_map =>
      match class_step st instrument inst_num with
      | Ok st' => class_loop class_map st'
      | Raise e => (st, Some e)
      end
  end.

(** The three numbers printed after the loop. *)
Definition averages (st : run_state) : num * num * num :=
  (np_mean (precision_lst st), np_mean (recall_lst st), np_mean (fscore_lst st)).

(** Cell 28 as a whole: the final state and the printed averages. *)
Definition fit_models (class_map : list (string * nat))
  : result (run_state * (num * num * num)) :=
  match class_loop class_map init_state with
  | (st, None) => Ok (st, averages st)
  | (_, Some e) => Raise e
  end.
End Loop.

Arguments run_state model : clear implicits.

(** Cells 24, 25 and 28 in sequence. *)
Definition notebook {model : Type}
    (fit : list (list num) → list bool → result model)
    (predict : model → list (list num) → result (list bool))
    (precision_recall_fscore_support :
       list bool → list bool → result (Qc * Qc * Qc * support_t))
    (ds : dataset) (train_set test_set : gset string)
    (class_map : list (string * nat))
  : result (run_state model * (num * num * num)) :=
  '(idx_train, idx_test) ←!
     Partitioner.partition (sample_key ds) train_set test_set;
  sd ←! slice ds idx_train idx_test;
  fit_models fit predict precision_recall_fscore_support
             (dimT ds) (dimD ds) (dimC ds) sd class_map.

End Pipeline.

(** ** Vocabulary of the properties *)

Module Spec.
Import Numpy Pipeline.

(** The sum and the unweighted arithmetic mean of a sequence. *)
Definition sum_Qc (xs : list Qc) : Qc := foldr Qcplus 0%Qc xs.

Definition arith_mean (xs : list Qc) : Qc := (sum_Qc xs / Qc_of_nat (length xs))%Qc.

(** Entry [(r, c)] of a matrix. *)
Definition entry {A} (m : list (list A)) (r c : nat) : option A :=
  m !! r ≫= (λ row, row !! c).

(** The values of feature [d] in the slices of a clip. *)
Definition feature_over_time (clip : list (list Qc)) (d : nat) : option (list Qc) :=
  mapM (λ v, v !! d) clip.

(** The rows of an index sequence that are annotated for class [c]. *)
Definition annotated_rows (ds : dataset) (c : nat) (idx : list nat) : list nat :=
  filter (λ r, entry (Y_mask ds) r c = Some true) idx.

Section Outcome.
Context {model : Type}.
Variable fit : list (list num) → list bool → result model.
Variable predict : model → list (list num) → result (list bool).
Variable precision_recall_fscore_support :
  list bool → list bool → result (Qc * Qc * Qc * support_t).
Variables T D C : nat.
Variable sd : split_data.

(** What one class contributes, as a function of the class alone: its
    classifier and its three scores, or the exception of the first call
    that raises. *)
Definition class_outcome (inst_num : nat) : result (model * (Qc * Qc * Qc)) :=
  d ←! prepare T D C sd inst_num;
  xgb_model ←! fit (X_train_inst_sklearn d) (Y_true_train_inst d);
  Y_pred_train ←! predict xgb_model (X_train_inst_sklearn d);
  Y_pred_test ←! predict xgb_model (X_test_inst_sklearn d);
  '(precision, recall, fscore, support) ←!
     precision_recall_fscore_support (Y_true_test_inst d) Y_pred_test;
  Ok (xgb_model, (precision, recall, fscore)).

(** A class is degenerate when the labels selected for it, in the train
    split or in the test split, take at most one value (none at all when
    no row is annotated). *)
Definition one_valued (labels : list bool) : Prop :=
  Forall (λ a, Forall (λ b, a = b) labels) labels.

Definition degenerate (d : class_data) : Prop :=
  one_valued (Y_true_train_inst d) ∨ one_valued (Y_true_test_inst d).

Definition degenerate_class (inst_num : nat) : Prop :=
  match prepare T D C sd inst_num with
  | Ok d => degenerate d
  | Raise _ => False
  end.

#[global] Instance one_valued_dec labels : Decision (one_valued labels).
Proof. unfold one_valued. apply _. Defined.
#[global] Instance degenerate_dec d : Decision (degenerate d).
Proof. unfold degenerate. apply _. Defined.
#[global] Instance degenerate_class_dec inst_num : Decision (degenerate_class inst_num).
Proof. unfold degenerate_class. destruct (prepare T D C sd inst_num); apply _. Defined.

(** The policy of the specification for degenerate classes: the run goes
    through, a degenerate class is skipped (no classifier is stored for
    it), and only the other classes are averaged. *)
Definition skips_degenerate_classes (class_map : list (string * nat)) : Prop :=
  ∃ st avg,
    fit_models fit predict precision_recall_fscore_support T D C sd class_map
      = Ok (st, avg) ∧
    (∀ instrument inst_num,
       (instrument, inst_num) ∈ class_map →
       degenerate_class inst_num →
       models st !! instrument = None) ∧
    length (precision_lst st)
      = length (filter (λ item, ¬ degenerate_class item.2) class_map).

Definition precision_of (o : model * (Qc * Qc * Qc)) : Qc := o.2.1.1.
Definition recall_of (o : model * (Qc * Qc * Qc)) : Qc := o.2.1.2.
Definition fscore_of (o : model * (Qc * Qc * Qc)) : Qc := o.2.2.

(** The state after a class that went through: its classifier stored under
    its name, its scores appended. *)
Definition record (st : run_state model) (instrument : string)
    (o : model * (Qc * Qc * Qc)) : run_state model :=
  RunState (<[instrument := o.1]> (models st))
           (precision_lst st ++ [precision_of o])
           (recall_lst st ++ [recall_of o])
           (fscore_lst st ++ [fscore_of o])
           (support_lst st).

Fixpoint record_all (st : run_state model) (class_map : list (string * nat))
    (os : list (model * (Qc * Qc * Qc))) : run_state model :=
  match class_map, os with
  | (instrument, _) :: class_map, o :: os =>
      record_all (record st instrument o) class_map os
  | _, _ => st
  end.

(** The outcomes of all classes, in order, or the first exception. *)
Fixpoint outcomes (class_map : list (string * nat))
  : result (list (model * (Qc * Qc * Qc))) :=
  match class_map with
  | [] => Ok []
  | (_, inst_num) :: class_map =>
      o ←! class_outcome inst_num;
      os ←! outcomes class_map;
      Ok (o :: os)
  end.
End Outcome.

(** The averages a run prints, if it gets that far, and the state it
    ends in. *)
Definition reported {A B} (r : result (A * B)) : option B :=
  snd <$> returned r.

Definition final_state {A B} (r : result (A * B)) : option A :=
  fst <$> returned r.

End Spec.

(** ** A small data set and stand-ins for the libraries *)

Module Demo.
Import Numpy Pipeline.

Definition q (n : Z) (d : positive) : Qc := Q2Qc (n # d).

(** A classifier that always answers the majority label of its training
    set, and refuses an empty one. *)
Definition majority (labels : list bool) : bool :=
  bool_decide (length (filter (λ b, b = false) labels)
               ≤ length (filter (λ b, b = true) labels)).

Definition demo_fit (features : list (list num)) (labels : list bool) : result bool :=
  match labels with
  | [] => Raise (ValueError "empty training set")
  | _ => Ok (majority labels)
  end.

Definition demo_predict (m : bool) (features : list (list num)) : result (list bool) :=
  Ok (replicate (length features) m).

(** Macro-averaged precision, recall and F1 over the labels that occur
    among the true and the predicted labels; an ill-defined ratio counts
    as 0. *)
Definition ratio (a b : nat) : Qc :=
  match b with
  | 0 => 0%Qc
  | _ => (Qc_of_nat a / Qc_of_nat b)%Qc
  end.

Definition label_scores (pairs : list (bool * bool)) (l : bool) : Qc * Qc * Qc :=
  let tp := length (filter (λ yp, yp = (l, l)) pairs) in
  let pred := length (filter (λ yp, yp.2 = l) pairs) in
  let actual := length (filter (λ yp, yp.1 = l) pairs) in
  let p := ratio tp pred in
  let r := ratio tp actual in
  let f := if decide (p + r = 0)%Qc then 0%Qc
           else (Q2Qc 2 * p * r / (p + r))%Qc in
  (p, r, f).

Definition demo_score (y_true y_pred : list bool)
  : result (Qc * Qc * Qc * support_t) :=
  if decide (length y_true = length y_pred) then
    let pairs := zip y_true y_pred in
    let labels := filter (λ l, l ∈ y_true ∨ l ∈ y_pred) [false; true] in
    match labels with
    | [] => Raise (ValueError "no samples")
    | _ =>
        let scores := label_scores pairs <$> labels in
        Ok (Spec.arith_mean ((λ s, s.1.1) <$> scores),
            Spec.arith_mean ((λ s, s.1.2) <$> scores),
            Spec.arith_mean ((λ s, s.2) <$> scores),
            None)
    end
  else Raise (ValueError "inconsistent numbers of samples").

(** Four clips of two slices with two features each, three classes. *)
Definition demo_ds : dataset := {|
  dimT := 2; dimD := 2; dimC := 3;
  X := [ [[q 1 1; q 1 1]; [q 3 1; q 3 1]];
         [[q 0 1; q 2 1]; [q 4 1; q 6 1]];
         [[q 2 1; q 2 1]; [q 2 1; q 2 1]];
         [[q 5 1; q 1 1]; [q 1 1; q 5 1]] ];
  Y_true := [ [q 1 2;         q 1 10; q 1 2];
              [q 4999 10000;  q 9 10; q 1 2];
              [q 1 5;         q 1 2;  q 1 2];
              [q 9 10;        q 1 2;  q 4 5] ];
  Y_mask := [ [true; false; false];
              [true; true;  true];
              [true; true;  false];
              [true; false; true] ];
  sample_key := ["a"; "b"; "c"; "d"]
|}.

Definition demo_train : gset string := {["c"; "a"]}.
Definition demo_test : gset string := {["d"; "b"]}.

Definition demo_sd : split_data :=
  match slice demo_ds [0; 2] [1; 3] with
  | Ok sd => sd
  | Raise _ => SplitData [] [] [] [] [] []
  end.

(** What cell 28 prepares for class column [c] of the small data set. *)
Definition demo_class (c : nat) : class_data :=
  match prepare 2 2 3 demo_sd c with
  | Ok d => d
  | Raise _ => ClassData [] [] [] []
  end.

(** Cell 28 on the small data set with the stand-ins. *)
Definition demo_run (class_map : list (string * nat))
  : result (run_state bool * (num * num * num)) :=
  fit_models demo_fit demo_predict demo_score 2 2 3 demo_sd class_map.

End Demo.

(** Equality of results is decidable, so closed facts can be computed. *)
#[global] Instance exn_eq_dec : EqDecision exn.
Proof. solve_decision. Defined.
#[global] Instance result_eq_dec {A} `{!EqDecision A} : EqDecision (result A).
Proof. solve_decision. Defined.
#[global] Instance num_eq_dec : EqDecision Numpy.num.
Proof. solve_decision. Defined.
#[global] Instance class_data_eq_dec : EqDecision Pipeline.class_data.
Proof. solve_decision. Defined.
#[global] Instance split_data_eq_dec : EqDecision Pipeline.split_data.
Proof. solve_decision. Defined.
#[global] Instance well_shaped_dec ds : Decision (Pipeline.well_shaped ds).
Proof. unfold Pipeline.well_shaped. apply _. Defined.
#[global] Instance run_state_eq_dec {model} `{!EqDecision model} :
  EqDecision (Pipeline.run_state model).
Proof. solve_decision. Defined.

Ltac by_computation :=
  match goal with
  | |- ?G => apply (bool_decide_unpack G); vm_compute; exact I
  end.

(** ** Cells 18 to 22: the split files *)

Module Splits.
Import Numpy Pipeline.

(** [set(split_train)]: the keys listed in a split file, as a set. *)
Definition key_set (split : list string) : gset string := list_to_set split.

(** The notebook run from the two lists of keys read in cell 18. *)
Definition notebook_from_splits {model : Type}
    (fit : list (list num) → list bool → result model)
    (predict : model → list (list num) → result (list bool))
    (precision_recall_fscore_support :
       list bool → list bool → result (Qc * Qc * Qc * support_t))
    (ds : dataset) (split_train split_test : list string)
    (class_map : list (string * nat))
  : result (run_state model * (num * num * num)) :=
  notebook fit predict precision_recall_fscore_support ds
           (key_set split_train) (key_set split_test) class_map.

(** A computed number lies between two bounds; [nan] lies nowhere. *)
Definition within (lo hi : Qc) (v : num) : Prop :=
  match v with
  | Num x => (lo ≤ x)%Qc ∧ (x ≤ hi)%Qc
  | NaN => False
  end.

End Splits.

(** ** The averages in float64 *)

Module Float64.
Import PrimFloat.

Definition of_nat (n : nat) : float := of_uint63 (Uint63.of_Z (Z.of_nat n)).

(** [np.mean] of a list of fewer than eight float64 values: numpy adds
    them one after the other, from left to right, starting from zero, and
    divides the sum by the count (0/0, that is [nan], for an empty list).
    Longer arrays are added in blocks of eight; they are not modelled. *)
Definition np_mean (xs : list float) : option float :=
  if decide (length xs < 8)
  then Some (foldl add 0%float xs / of_nat (length xs))%float
  else None.

(** The end of the loop body and the three prints of cell 28, with the
    float64 scores of each class column given: every class appends its
    scores to the three lists in the order of the class map, and the means
    of the lists are printed. *)
Definition printed_averages (scores : nat → float * float * float)
    (class_map : list (string * nat)) : option (float * float * float) :=
  let lists :=
    foldl (λ (acc : list float * list float * list float) (item : string * nat),
             let '(precision, recall, fscore) := scores item.2 in
             (acc.1.1 ++ [precision], acc.1.2 ++ [recall], acc.2 ++ [fscore]))
          ([], [], []) class_map in
  p ← np_mean lists.1.1;
  r ← np_mean lists.1.2;
  f ← np_mean lists.2;
  Some (p, r, f).

#[local] Set Warnings "-inexact-float".

(** Three classes that score 0.1, 0.2 and 0.3 on each of the metrics. *)
Definition demo_scores (inst_num : nat) : float * float * float :=
  match inst_num with
  | 0 => (0.1, 0.1, 0.1)%float
  | 1 => (0.2, 0.2, 0.2)%float
  | _ => (0.3, 0.3, 0.3)%float
  end.

#[local] Set Warnings "+inexact-float".

End Float64.

(** ** Two runs that differ in the order of the classes *)

Module Reordering.
Import Numpy Pipeline Spec.

(** Both runs stop, or both return and their metric lists hold the same
    values, each as often, with equal sums and equal arithmetic means. *)
Definition same_up_to_order {model : Type}
    (r r' : result (run_state model * (num * num * num))) : Prop :=
  match r, r' with
  | Ok (st, _), Ok (st', _) =>
      (precision_lst st ≡ₚ precision_lst st' ∧
       recall_lst st ≡ₚ recall_lst st' ∧
       fscore_lst st ≡ₚ fscore_lst st') ∧
      (arith_mean (precision_lst st) = arith_mean (precision_lst st') ∧
       arith_mean (recall_lst st) = arith_mean (recall_lst st') ∧
       arith_mean (fscore_lst st) = arith_mean (fscore_lst st'))
  | Raise _, Raise _ => True
  | _, _ => False
  end.

(** A feature or a bound that is a whole number between [lo] and [hi]. *)
Definition integer_between (lo hi : Z) (x : Qc) : Prop :=
  ∃ z : Z, (lo ≤ z ≤ hi)%Z ∧ x = Qc_of_Z z.

(** Sums of [T] whole numbers between [lo] and [hi] stay below 2^53 in
    absolute value, so float64 holds each of them exactly. *)
Definition exactly_summable (T : nat) (lo hi : Z) : Prop :=
  (Z.of_nat T * Z.max (Z.abs lo) (Z.abs hi) < 2 ^ 53)%Z.

End Reordering.

(** * Properties *)

(** ** Row positions *)

Section RowsFacts.
Import Partitioner.
Context (P : string → Prop) `{!∀ k, Decision (P k)}.

Lemma count_keys_cons k keys :
  count_keys P (k :: keys) = (if decide (P k) then 1 else 0) + count_keys P keys.
Proof.
  unfold count_keys. rewrite filter_cons. destruct (decide (P k)); reflexivity.
Qed.

Lemma count_keys_take_le keys m1 m2 :
  m1 ≤ m2 → count_keys P (take m1 keys) ≤ count_keys P (take m2 keys).
Proof.
  revert m1 m2. induction keys as [|k keys IH]; intros m1 m2 Hle.
  - rewrite !take_nil. lia.
  - destruct m1 as [|m1]; [unfold count_keys; simpl; lia|].
    destruct m2 as [|m2]; [lia|]. simpl.
    rewrite !count_keys_cons. specialize (IH m1 m2). lia.
Qed.

Lemma rows_of_lookup start keys i j :
  rows_of P start keys !! i = Some j ↔
  ∃ m k, j = start + m ∧ keys !! m = Some k ∧ P k ∧
         count_keys P (take m keys) = i.
Proof.
  revert start i. induction keys as [|k0 keys IH]; intros start i; simpl.
  - split; [intros Hnil; discriminate|].
    intros (m & k & _ & Hk & _). rewrite lookup_nil in Hk. discriminate.
  - destruct (decide (P k0)) as [Hp|Hp].
    + destruct i as [|i]; simpl.
      * split.
        -- intros [= <-]. exists 0, k0. repeat split; [lia|assumption].
        -- intros (m & k & -> & Hk & HP & Hc). destruct m as [|m].
           ++ f_equal. lia.
           ++ simpl in Hc. rewrite count_keys_cons in Hc.
              destruct (decide (P k0)); [lia|contradiction].
      * rewrite IH. split.
        -- intros (m & k & -> & Hk & HP & Hc). exists (S m), k.
           repeat split; [lia|assumption|assumption|].
           simpl. rewrite count_keys_cons.
           destruct (decide (P k0)); [lia|contradiction].
        -- intros (m & k & -> & Hk & HP & Hc). destruct m as [|m].
           ++ simpl in Hc. discriminate.
           ++ simpl in Hk, Hc. rewrite count_keys_cons in Hc.
              destruct (decide (P k0)); [|contradiction].
              exists m, k. repeat split; [lia|assumption|assumption|lia].
    + rewrite IH. split.
      * intros (m & k & -> & Hk & HP & Hc). exists (S m), k.
        repeat split; [lia|assumption|assumption|].
        simpl. rewrite count_keys_cons.
        destruct (decide (P k0)); [contradiction|lia].
      * intros (m & k & -> & Hk & HP & Hc). destruct m as [|m].
        -- simpl in Hk. injection Hk as ->. contradiction.
        -- simpl in Hk, Hc. rewrite count_keys_cons in Hc.
           destruct (decide (P k0)); [contradiction|].
           exists m, k. repeat split; [lia|assumption|assumption|lia].
Qed.

Lemma rows_of_elem start keys j :
  j ∈ rows_of P start keys ↔
  ∃ m k, j = start + m ∧ keys !! m = Some k ∧ P k.
Proof.
  rewrite list_elem_of_lookup. split.
  - intros [i Hi]. apply rows_of_lookup in Hi as (m & k & ? & ? & ? & _).
    eauto.
  - intros (m & k & ? & ? & ?). exists (count_keys P (take m keys)).
    apply rows_of_lookup. eauto 10.
Qed.

Lemma rows_of_increasing start keys i1 i2 j1 j2 :
  i1 < i2 →
  rows_of P start keys !! i1 = Some j1 →
  rows_of P start keys !! i2 = Some j2 →
  j1 < j2.
Proof.
  intros Hlt H1 H2.
  apply rows_of_lookup in H1 as (m1 & k1 & -> & _ & _ & Hc1).
  apply rows_of_lookup in H2 as (m2 & k2 & -> & _ & _ & Hc2).
  destruct (decide (m1 < m2)) as [|Hge]; [lia|].
  pose proof (count_keys_take_le keys m2 m1 ltac:(lia)). lia.
Qed.

Lemma rows_of_NoDup start keys : NoDup (rows_of P start keys).
Proof.
  apply NoDup_alt. intros i1 i2 j H1 H2.
  destruct (Nat.lt_trichotomy i1 i2) as [Hlt|[Heq|Hgt]]; [|assumption|].
  - pose proof (rows_of_increasing _ _ _ _ _ _ Hlt H1 H2). lia.
  - pose proof (rows_of_increasing _ _ _ _ _ _ Hgt H2 H1). lia.
Qed.
End RowsFacts.

Lemma rows_of_ext (P Q : string → Prop)
    `{!∀ k, Decision (P k)} `{!∀ k, Decision (Q k)} start keys :
  (∀ k, k ∈ keys → P k ↔ Q k) →
  Partitioner.rows_of P start keys = Partitioner.rows_of Q start keys.
Proof.
  revert start. induction keys as [|k keys IH]; intros start HPQ; [reflexivity|].
  simpl. rewrite IH by (intros k' Hk'; apply HPQ, list_elem_of_further, Hk').
  pose proof (HPQ k (list_elem_of_here k keys)) as Hk.
  destruct (decide (P k)), (decide (Q k)); tauto.
Qed.

(** ** The partition loop *)

Section PartitionFacts.
Import Partitioner.
Variable sample_key : list string.
Variables train_set test_set : gset string.

#[local] Abbreviation in_train := (in_train train_set).
#[local] Abbreviation in_test_only := (in_test_only train_set test_set).
#[local] Abbreviation known := (known train_set test_set).

(** As long as the keys are known the loop appends and goes on. *)
Lemma loop_known start keys st :
  Forall known keys →
  loop sample_key train_set test_set (enumerate_from start keys) st =
  (SplitState (idx_train st ++ rows_of in_train start keys)
              (idx_test st ++ rows_of in_test_only start keys), None).
Proof.
  revert start st. induction keys as [|k keys IH]; intros start st Hall.
  - simpl. rewrite !app_nil_r. destruct st; reflexivity.
  - apply Forall_cons in Hall as [Hk Hall]. simpl. unfold body.
    destruct (decide (k ∈ train_set)) as [Htr|Htr].
    + rewrite IH by assumption. simpl.
      destruct (decide (in_train k)); [|contradiction].
      destruct (decide (in_test_only k)) as [[? _]|_]; [contradiction|].
      rewrite <- app_assoc. reflexivity.
    + destruct (decide (k ∈ test_set)) as [Hte|Hte].
      * rewrite IH by assumption. simpl.
        destruct (decide (in_train k)); [contradiction|].
        destruct (decide (in_test_only k)) as [_|Hn]; [|exfalso; apply Hn; split; assumption].
        rewrite <- app_assoc. reflexivity.
      * destruct Hk; contradiction.
Qed.

(** The first key that is in neither set stops the loop, and what stops it
    is the [IndexError] of [sample_key[n]]. *)
Lemma loop_unknown start pre k post st :
  Forall known pre → ¬ known k →
  loop sample_key train_set test_set (enumerate_from start (pre ++ k :: post)) st =
  (SplitState (idx_train st ++ rows_of in_train start pre)
              (idx_test st ++ rows_of in_test_only start pre),
   Some (IndexError numpy_index_msg)).
Proof.
  revert start st. induction pre as [|k0 pre IH]; intros start st Hall Hk.
  - simpl. unfold body.
    destruct (decide (k ∈ train_set)); [exfalso; apply Hk; left; assumption|].
    destruct (decide (k ∈ test_set)); [exfalso; apply Hk; right; assumption|].
    simpl. rewrite !app_nil_r. destruct st; reflexivity.
  - apply Forall_cons in Hall as [Hk0 Hall]. simpl. unfold body.
    destruct (decide (k0 ∈ train_set)) as [Htr|Htr].
    + rewrite IH by assumption. simpl.
      destruct (decide (in_train k0)); [|contradiction].
      destruct (decide (in_test_only k0)) as [[? _]|_]; [contradiction|].
      rewrite <- app_assoc. reflexivity.
    + destruct (decide (k0 ∈ test_set)) as [Hte|Hte].
      * rewrite IH by assumption. simpl.
        destruct (decide (in_train k0)); [contradiction|].
        destruct (decide (in_test_only k0)) as [_|Hn]; [|exfalso; apply Hn; split; assumption].
        rewrite <- app_assoc. reflexivity.
      * destruct Hk0; contradiction.
Qed.

Lemma known_or_first_unknown (keys : list string) :
  Forall known keys ∨
  ∃ pre k post, keys = pre ++ k :: post ∧ Forall known pre ∧ ¬ known k.
Proof.
  induction keys as [|k keys IH]; [left; constructor|].
  destruct (decide (known k)) as [Hk|Hk].
  - destruct IH as [Hall|(pre & k' & post & -> & Hpre & Hk')].
    + left. constructor; assumption.
    + right. exists (k :: pre), k', post. split; [reflexivity|].
      split; [constructor; assumption|assumption].
  - right. exists [], k, keys. split; [reflexivity|]. split; [constructor|assumption].
Qed.

Lemma partition_known :
  Forall known sample_key →
  partition sample_key train_set test_set =
  Ok (rows_of in_train 0 sample_key, rows_of in_test_only 0 sample_key).
Proof.
  intros Hall. unfold partition, run_loop, enumerate.
  rewrite loop_known by assumption. reflexivity.
Qed.

Lemma partition_unknown pre k post :
  sample_key = pre ++ k :: post → Forall known pre → ¬ known k →
  partition sample_key train_set test_set = Raise (IndexError numpy_index_msg).
Proof.
  intros Hkeys Hpre Hk. unfold partition, run_loop, enumerate.
  pose proof (loop_unknown 0 pre k post (SplitState [] []) Hpre Hk) as Hloop.
  rewrite <- Hkeys in Hloop. rewrite Hloop. reflexivity.
Qed.
End PartitionFacts.

Section PartitionFinalState.
Import Partitioner.
Variable sample_key : list string.
Variables train_set test_set : gset string.

(** The lists the loop leaves behind, whether or not it was stopped: the
    rows of the longest prefix of known keys. *)
Lemma run_loop_state :
  ∃ pre, pre `prefix_of` sample_key ∧
    Forall (known train_set test_set) pre ∧
    (pre = sample_key ∨
     ∃ k, pre ++ [k] `prefix_of` sample_key ∧ ¬ known train_set test_set k) ∧
    (run_loop sample_key train_set test_set).1 =
      SplitState (rows_of (in_train train_set) 0 pre)
                 (rows_of (in_test_only train_set test_set) 0 pre).
Proof.
  destruct (known_or_first_unknown train_set test_set sample_key)
    as [Hall|(pre & k & post & Hkeys & Hpre & Hk)].
  - exists sample_key. split; [reflexivity|]. split; [assumption|].
    split; [left; reflexivity|].
    unfold run_loop, enumerate. rewrite loop_known by assumption. reflexivity.
  - exists pre. split; [exists (k :: post); assumption|]. split; [assumption|].
    split.
    + right. exists k. split; [|assumption].
      exists post. rewrite <- app_assoc. assumption.
    + unfold run_loop, enumerate.
      pose proof (loop_unknown sample_key train_set test_set 0 pre k post
                    (SplitState [] []) Hpre Hk) as Hloop.
      rewrite <- Hkeys in Hloop. rewrite Hloop. reflexivity.
Qed.

Lemma partition_raised_iff :
  raised (partition sample_key train_set test_set) ↔
  ∃ k, k ∈ sample_key ∧ (k ∉ train_set) ∧ (k ∉ test_set).
Proof.
  destruct (known_or_first_unknown train_set test_set sample_key)
    as [Hall|(pre & k & post & Hkeys & Hpre & Hk)].
  - rewrite partition_known by assumption. split.
    + intros [e He]. discriminate.
    + intros (k & Hin & Htr & Hte).
      rewrite Forall_forall in Hall. destruct (Hall k Hin); contradiction.
  - rewrite (partition_unknown _ _ _ pre k post) by assumption. split.
    + intros _. exists k. rewrite Hkeys. split.
      * apply elem_of_app. right. apply list_elem_of_here.
      * split; intros Hin; apply Hk; [left|right]; assumption.
    + intros _. eexists. reflexivity.
Qed.

(** Whatever the input, the cell never raises the [RuntimeError] it
    spells out. *)
Lemma partition_never_RuntimeError msg :
  partition sample_key train_set test_set ≠ Raise (RuntimeError msg).
Proof.
  destruct (known_or_first_unknown train_set test_set sample_key)
    as [Hall|(pre & k & post & Hkeys & Hpre & Hk)].
  - rewrite partition_known by assumption. discriminate.
  - rewrite (partition_unknown _ _ _ pre k post) by assumption. discriminate.
Qed.

Lemma unknown_key_IndexError k :
  k ∈ sample_key → k ∉ train_set → k ∉ test_set →
  partition sample_key train_set test_set = Raise (IndexError numpy_index_msg).
Proof.
  intros Hin Htr Hte.
  destruct (known_or_first_unknown train_set test_set sample_key)
    as [Hall|(pre & k' & post & Hkeys & Hpre & Hk')].
  - rewrite Forall_forall in Hall. destruct (Hall k Hin); contradiction.
  - apply (partition_unknown _ _ _ pre k' post); assumption.
Qed.
End PartitionFinalState.

Section PartitionRows.
Import Partitioner.
Variable sample_key : list string.
Variables train_set test_set : gset string.

(** With every key known, the rows sent to the two lists rearrange
    [0 .. N-1]: no row is lost and none is taken twice. *)
Lemma rows_exclusive j :
  j ∈ rows_of (in_train train_set) 0 sample_key →
  j ∉ rows_of (in_test_only train_set test_set) 0 sample_key.
Proof.
  intros (m & k & -> & Hk & Hin)%rows_of_elem
         (m' & k' & Heq & Hk' & Hn & _)%rows_of_elem.
  assert (m' = m) as -> by lia. rewrite Hk in Hk'. injection Hk' as <-.
  contradiction.
Qed.

Lemma rows_cover j :
  Forall (known train_set test_set) sample_key →
  j < length sample_key →
  j ∈ rows_of (in_train train_set) 0 sample_key ∨
  j ∈ rows_of (in_test_only train_set test_set) 0 sample_key.
Proof.
  intros Hall Hj. apply lookup_lt_is_Some in Hj as [k Hk].
  rewrite Forall_forall in Hall.
  assert (Hin : k ∈ sample_key) by (apply list_elem_of_lookup; eauto).
  destruct (decide (k ∈ train_set)) as [Htr|Htr].
  - left. apply rows_of_elem. exists j, k. auto.
  - right. apply rows_of_elem. exists j, k.
    destruct (Hall k Hin) as [?|Hte]; [contradiction|].
    repeat split; auto.
Qed.

Lemma rows_permutation :
  Forall (known train_set test_set) sample_key →
  rows_of (in_train train_set) 0 sample_key ++
  rows_of (in_test_only train_set test_set) 0 sample_key
  ≡ₚ seq 0 (length sample_key).
Proof.
  intros Hall. apply NoDup_Permutation.
  - apply NoDup_app. split; [apply rows_of_NoDup|].
    split; [apply rows_exclusive|apply rows_of_NoDup].
  - apply NoDup_seq.
  - intros j. rewrite elem_of_app, elem_of_seq. split.
    + intros [Hj|Hj]; apply rows_of_elem in Hj as (m & k & -> & Hk & _);
        apply lookup_lt_Some in Hk; lia.
    + intros [_ Hj]. apply rows_cover; [assumption|lia].
Qed.
End PartitionRows.

(** ** Claims about the partitioner *)

Section PartitionClaims.
Import Partitioner.

(** C1.  When every key of the sequence is in the train set or in the test
    set and the two sets are disjoint, the partitioner returns [idxTrain]
    and [idxTest] such that: [idxTrain[i]] is the row of the i-th train key
    met when the sequence is read from the start, and likewise for
    [idxTest]; each of the two is in increasing row order; every row number
    is in exactly one of them (together they are a rearrangement of
    [0 .. N-1]); and the two lengths add up to N. *)
Theorem partition_complete_in_row_order
    (sample_key : list string) (train_set test_set : gset string) :
  Forall (known train_set test_set) sample_key →
  train_set ## test_set →
  ∃ idxTrain idxTest,
    partition sample_key train_set test_set = Ok (idxTrain, idxTest) ∧
    (∀ i j, idxTrain !! i = Some j ↔
       ∃ k, sample_key !! j = Some k ∧ k ∈ train_set ∧
            count_keys (in_train train_set) (take j sample_key) = i) ∧
    (∀ i j, idxTest !! i = Some j ↔
       ∃ k, sample_key !! j = Some k ∧ k ∈ test_set ∧
            count_keys (in_test test_set) (take j sample_key) = i) ∧
    (∀ i1 i2 j1 j2, i1 < i2 →
       idxTrain !! i1 = Some j1 → idxTrain !! i2 = Some j2 → j1 < j2) ∧
    (∀ i1 i2 j1 j2, i1 < i2 →
       idxTest !! i1 = Some j1 → idxTest !! i2 = Some j2 → j1 < j2) ∧
    (∀ j, j < length sample_key →
       (j ∈ idxTrain ∧ (j ∉ idxTest)) ∨ ((j ∉ idxTrain) ∧ j ∈ idxTest)) ∧
    idxTrain ++ idxTest ≡ₚ seq 0 (length sample_key) ∧
    length idxTrain + length idxTest = length sample_key.
Proof.
  intros Hall Hdisj.
  exists (rows_of (in_train train_set) 0 sample_key),
         (rows_of (in_test test_set) 0 sample_key).
  pose proof (rows_permutation sample_key train_set test_set Hall) as Hperm.
  pose proof (rows_exclusive sample_key train_set test_set) as Hexcl.
  pose proof (λ j, rows_cover sample_key train_set test_set j Hall) as Hcover.
  assert (Htest : rows_of (in_test_only train_set test_set) 0 sample_key
                  = rows_of (in_test test_set) 0 sample_key).
  { apply rows_of_ext. intros k _. unfold in_test_only, in_test. split.
    - intros [_ ?]; assumption.
    - intros Hin. split; [|assumption]. intros Htr. exact (Hdisj k Htr Hin). }
  rewrite Htest in Hperm, Hexcl, Hcover.
  split; [rewrite partition_known, Htest by assumption; reflexivity|].
  split.
  { intros i j. rewrite rows_of_lookup. split.
    - intros (m & k & -> & Hk & Hin & Hc). exists k. auto.
    - intros (k & Hk & Hin & Hc). exists j, k. auto. }
  split.
  { intros i j. rewrite rows_of_lookup. split.
    - intros (m & k & -> & Hk & Hin & Hc). exists k. auto.
    - intros (k & Hk & Hin & Hc). exists j, k. auto. }
  split; [apply rows_of_increasing|].
  split; [apply rows_of_increasing|].
  split.
  { intros j Hj. destruct (Hcover j Hj) as [Hin|Hin].
    - left. split; [assumption|apply Hexcl, Hin].
    - right. split; [|assumption]. intros Hin'. exact (Hexcl j Hin' Hin). }
  split; [assumption|].
  rewrite <- length_app, Hperm, length_seq. reflexivity.
Qed.

Lemma partition_complete_in_row_order_witness :
  Forall (known Demo.demo_train Demo.demo_test) ["a"; "b"; "c"; "d"] ∧
  Demo.demo_train ## Demo.demo_test ∧
  ∃ idxTrain idxTest,
    partition ["a"; "b"; "c"; "d"] Demo.demo_train Demo.demo_test
      = Ok (idxTrain, idxTest) ∧
    idxTrain ++ idxTest ≡ₚ seq 0 4 ∧
    length idxTrain + length idxTest = 4.
Proof.
  assert (H1 : Forall (known Demo.demo_train Demo.demo_test) ["a"; "b"; "c"; "d"])
    by by_computation.
  assert (H2 : Demo.demo_train ## Demo.demo_test) by by_computation.
  split; [exact H1|]. split; [exact H2|].
  destruct (partition_complete_in_row_order
              ["a"; "b"; "c"; "d"] Demo.demo_train Demo.demo_test H1 H2)
    as (tr & te & Hp & _ & _ & _ & _ & _ & Hperm & Hlen).
  exists tr, te. split; [exact Hp|]. split; [exact Hperm|exact Hlen].
Defined.

(** C6 (the code departs from the claim).  A key that is in neither set
    does stop the cell, but not with the [RuntimeError] that names the key:
    building its message evaluates [sample_key[n]] with the key itself as
    index, and that raises [IndexError].  The lists keep what was appended
    before the key was met. *)
Theorem unknown_key_raises_IndexError_not_RuntimeError :
  partition ["a"; "zz"; "b"] {["a"]} {["b"]}
    = Raise (IndexError numpy_index_msg) ∧
  partition ["a"; "zz"; "b"] {["a"]} {["b"]}
    ≠ Raise (RuntimeError (unknown_key_msg "zz")) ∧
  run_loop ["a"; "zz"; "b"] {["a"]} {["b"]}
    = (SplitState [0] [], Some (IndexError numpy_index_msg)).
Proof.
  split; [|split].
  - apply (unknown_key_IndexError _ _ _ "zz"); by_computation.
  - apply partition_never_RuntimeError.
  - vm_compute. reflexivity.
Qed.

(** C8, the claim as written fails: a key listed in both split files is
    not reported; the cell returns a partition. *)
Lemma overlap_is_partitioned_silently :
  (∃ k, k ∈ ["a"; "b"] ∧ k ∈ ({["a"]} : gset string)
        ∧ k ∈ ({["a"; "b"]} : gset string)) ∧
  ¬ raised (partition ["a"; "b"] {["a"]} {["a"; "b"]}) ∧
  partition ["a"; "b"] {["a"]} {["a"; "b"]} = Ok ([0], [1]).
Proof.
  split; [|split].
  - exists "a". repeat split; by_computation.
  - intros [e He]. vm_compute in He. discriminate.
  - vm_compute. reflexivity.
Qed.

(** C8, amended.  When some key is in both split sets the cell does not
    treat it as an error: it raises exactly when some key of the sequence
    is in neither set, and when every key is in at least one set it
    returns two index sequences whose lengths add up to N. *)
Theorem overlap_is_not_an_error
    (sample_key : list string) (train_set test_set : gset string) :
  (∃ k, k ∈ sample_key ∧ k ∈ train_set ∧ k ∈ test_set) →
  (raised (partition sample_key train_set test_set) ↔
     ∃ k, k ∈ sample_key ∧ (k ∉ train_set) ∧ (k ∉ test_set)) ∧
  (Forall (known train_set test_set) sample_key →
     ∃ idxTrain idxTest,
       partition sample_key train_set test_set = Ok (idxTrain, idxTest) ∧
       length idxTrain + length idxTest = length sample_key).
Proof.
  intros _. split; [apply partition_raised_iff|].
  intros Hall. eexists _, _. split; [apply partition_known, Hall|].
  rewrite <- length_app, rows_permutation, length_seq by assumption.
  reflexivity.
Qed.

Lemma overlap_is_not_an_error_witness :
  ∃ idxTrain idxTest,
    partition ["a"; "b"] {["a"]} {["a"; "b"]} = Ok (idxTrain, idxTest) ∧
    length idxTrain + length idxTest = 2.
Proof.
  apply (overlap_is_not_an_error ["a"; "b"] {["a"]} {["a"; "b"]}).
  - exists "a". repeat split; by_computation.
  - by_computation.
Defined.

(** C10.  A key that is in both sets is handled by the first branch of the
    loop body: its row number is appended to [idx_train], [idx_test] is
    left alone and nothing is raised.  So the row is never in [idx_test],
    it is in [idx_train] as soon as the loop reaches it, and a partition
    that is returned has it on the train side only. *)
Theorem overlapping_key_goes_to_train
    (sample_key : list string) (train_set test_set : gset string)
    (j : nat) (k : string) :
  sample_key !! j = Some k → k ∈ train_set → k ∈ test_set →
  (∀ st, body sample_key train_set test_set st j k
         = Ok (SplitState (idx_train st ++ [j]) (idx_test st))) ∧
  (j ∉ idx_test (run_loop sample_key train_set test_set).1) ∧
  (Forall (known train_set test_set) (take j sample_key) →
   j ∈ idx_train (run_loop sample_key train_set test_set).1) ∧
  (∀ idxTrain idxTest,
     partition sample_key train_set test_set = Ok (idxTrain, idxTest) →
     j ∈ idxTrain ∧ (j ∉ idxTest)).
Proof.
  intros Hk Htr Hte.
  destruct (run_loop_state sample_key train_set test_set)
    as (pre & [post Hpre] & Hknown & Hstop & Hst).
  assert (Hnot_test : ∀ keys, keys `prefix_of` sample_key →
            j ∉ rows_of (in_test_only train_set test_set) 0 keys).
  { intros keys [rest Hkeys] (m & k' & -> & Hk' & Hn & _)%rows_of_elem.
    apply (lookup_app_l_Some _ rest) in Hk'. rewrite <- Hkeys in Hk'.
    simpl in Hk. rewrite Hk in Hk'. injection Hk' as <-. contradiction. }
  split.
  { intros st. unfold body. destruct (decide (k ∈ train_set)); [reflexivity|contradiction]. }
  split.
  { rewrite Hst. simpl. apply Hnot_test. exists post. assumption. }
  split.
  { intros Hbefore. rewrite Hst. simpl. apply rows_of_elem. exists j, k.
    split; [reflexivity|]. split; [|assumption].
    destruct Hstop as [->|(u & [rest Hu] & Hbad)]; [assumption|].
    rewrite <- app_assoc in Hu. simpl in Hu.
    destruct (decide (j < length pre)) as [Hlt|Hge].
    - rewrite Hu, lookup_app_l in Hk by assumption. assumption.
    - exfalso. destruct (decide (j = length pre)) as [->|Hne].
      + rewrite Hu, list_lookup_middle in Hk by reflexivity.
        injection Hk as ->. apply Hbad. left. assumption.
      + rewrite Forall_forall in Hbefore. apply Hbad, Hbefore.
        apply list_elem_of_lookup. exists (length pre).
        rewrite lookup_take_lt by lia.
        rewrite Hu. apply list_lookup_middle. reflexivity. }
  intros tr te Hpart. unfold partition in Hpart.
  destruct (run_loop sample_key train_set test_set) as [st [e|]] eqn:Hrun;
    [discriminate|].
  injection Hpart as <- <-. simpl in Hst.
  destruct Hstop as [->|(u & [rest Hu] & Hbad)].
  - rewrite Hst. simpl. split.
    + apply rows_of_elem. exists j, k. auto.
    + apply Hnot_test. reflexivity.
  - exfalso. rewrite <- app_assoc in Hu. simpl in Hu.
    unfold run_loop, enumerate in Hrun.
    pose proof (loop_unknown sample_key train_set test_set 0 pre u rest
                  (SplitState [] []) Hknown Hbad) as Hloop.
    rewrite <- Hu in Hloop. rewrite Hloop in Hrun. discriminate.
Qed.

Lemma overlapping_key_goes_to_train_witness :
  0 ∈ idx_train (run_loop ["a"; "b"] {["a"]} {["a"; "b"]}).1 ∧
  (0 ∉ idx_test (run_loop ["a"; "b"] {["a"]} {["a"; "b"]}).1).
Proof.
  destruct (overlapping_key_goes_to_train
              ["a"; "b"] {["a"]} {["a"; "b"]} 0 "a")
    as (_ & Hte & Htr & _).
  - reflexivity.
  - by_computation.
  - by_computation.
  - split; [apply Htr; by_computation|exact Hte].
Defined.
End PartitionClaims.

(** ** The numpy operations *)

Section NumpyFacts.
Import Numpy.

Lemma rbind_Ok {A B} (m : result A) (k : A → result B) b :
  rbind m k = Ok b → ∃ a, m = Ok a ∧ k a = Ok b.
Proof. destruct m as [a|e]; simpl; [eauto|discriminate]. Qed.

Lemma lift_lookup_Ok {A} (o : option A) a : lift_lookup o = Ok a → o = Some a.
Proof. destruct o; simpl; congruence. Qed.

Lemma take_rows_Ok {A} (a : list A) idx rows :
  take_rows a idx = Ok rows → Forall2 (λ i x, a !! i = Some x) idx rows.
Proof.
  unfold take_rows. destruct idx as [|i idx]; [discriminate|].
  intros Hrows%lift_lookup_Ok. apply mapM_Some in Hrows. exact Hrows.
Qed.

Lemma column_Ok {A} ncols (m : list (list A)) c v :
  column ncols m c = Ok v →
  c < ncols ∧ Forall2 (λ row x, row !! c = Some x) m v.
Proof.
  unfold column. destruct (decide (c < ncols)); [|discriminate].
  intros Hv%lift_lookup_Ok. apply mapM_Some in Hv. auto.
Qed.

Lemma bool_index_Ok {A} (a : list A) mask rows :
  bool_index a mask = Ok rows → length mask = length a ∧ rows = select mask a.
Proof.
  unfold bool_index. destruct (decide (length mask = length a)); [|discriminate].
  intros [= <-]. auto.
Qed.

Lemma select_Forall2 {A B} (R : A → B → Prop) mask l1 l2 :
  Forall2 R l1 l2 → Forall2 R (select mask l1) (select mask l2).
Proof.
  intros HR. revert mask. induction HR as [|x y l1 l2 Hxy HR IH]; intros mask.
  - destruct mask; constructor.
  - destruct mask as [|[] mask]; simpl; [constructor| |apply IH].
    constructor; [assumption|apply IH].
Qed.

Lemma select_filter {A} (f : A → option bool) (l : list A) mask :
  Forall2 (λ x b, f x = Some b) l mask →
  select mask l = filter (λ x, f x = Some true) l.
Proof.
  induction 1 as [|x b l mask Hx Hl IH]; [reflexivity|].
  rewrite filter_cons. simpl.
  destruct b; destruct (decide (f x = Some true)) as [Ht|Ht];
    rewrite IH; congruence.
Qed.

Lemma Forall2_compose {A B C} (R : A → B → Prop) (S : B → C → Prop) l1 l2 l3 :
  Forall2 R l1 l2 → Forall2 S l2 l3 →
  Forall2 (λ x z, ∃ y, R x y ∧ S y z) l1 l3.
Proof.
  intros HR. revert l3. induction HR; intros l3 HS; inversion HS; subst;
    constructor; eauto.
Qed.

(** The threshold. *)
Lemma ge_half_true y : ge_half y = true ↔ (Q2Qc (1 # 2) ≤ y)%Qc.
Proof.
  unfold ge_half. split.
  - intros Hb. apply bool_decide_eq_true in Hb. exact Hb.
  - intros Hle. apply bool_decide_eq_true. exact Hle.
Qed.

Lemma ge_half_false y : ge_half y = false ↔ (y < Q2Qc (1 # 2))%Qc.
Proof.
  unfold ge_half. rewrite bool_decide_eq_false. split.
  - apply Qcnot_le_lt.
  - apply Qclt_not_le.
Qed.
End NumpyFacts.

(** ** The mean over time *)

Section MeanFacts.
Import Numpy Spec.

Lemma foldl_Qcplus a xs : foldl Qcplus a xs = (a + sum_Qc xs)%Qc.
Proof.
  revert a. induction xs as [|x xs IH]; intros a; simpl.
  - rewrite Qcplus_0_r. reflexivity.
  - rewrite IH, Qcplus_assoc. reflexivity.
Qed.

Lemma add_reduce_sum xs : add_reduce xs = sum_Qc xs.
Proof. unfold add_reduce. rewrite foldl_Qcplus. apply Qcplus_0_l. Qed.

Lemma np_mean_arith_mean xs : xs ≠ [] → np_mean xs = Num (arith_mean xs).
Proof.
  intros Hne. destruct xs as [|x xs]; [contradiction|].
  unfold np_mean, arith_mean. rewrite add_reduce_sum. reflexivity.
Qed.

Lemma foldl_vadd_lookup clip acc d a col :
  acc !! d = Some a →
  Forall2 (λ v x, v !! d = Some x) clip col →
  foldl vadd acc clip !! d = Some (foldl Qcplus a col).
Proof.
  intros Ha Hcol. revert acc a Ha.
  induction Hcol as [|v x clip col Hv Hcol IH]; intros acc a Ha; [assumption|].
  simpl. apply IH. unfold vadd. rewrite lookup_zip_with, Ha, Hv. reflexivity.
Qed.

Lemma foldl_vadd_length D clip acc :
  length acc = D → Forall (λ v, length v = D) clip →
  length (foldl vadd acc clip) = D.
Proof.
  intros Hacc Hclip. revert acc Hacc.
  induction Hclip as [|v clip Hv Hclip IH]; intros acc Hacc; [assumption|].
  simpl. apply IH. unfold vadd. rewrite length_zip_with. lia.
Qed.

Lemma feature_over_time_defined D clip d :
  Forall (λ v, length v = D) clip → d < D →
  ∃ col, feature_over_time clip d = Some col ∧ length col = length clip.
Proof.
  intros Hclip Hd.
  destruct (mapM_is_Some_2 (λ v : list Qc, v !! d) clip) as [col Hcol].
  - eapply Forall_impl; [exact Hclip|]. intros v Hv. simpl in *.
    apply lookup_lt_is_Some. lia.
  - exists col. split; [exact Hcol|].
    apply mapM_Some, Forall2_length in Hcol. congruence.
Qed.

(** In a clip of T > 0 slices of D features, component [d] of the reduced
    vector is the arithmetic mean of feature [d] over the T slices. *)
Lemma mean_over_time_spec T D clip d :
  0 < T → length clip = T → Forall (λ v, length v = D) clip → d < D →
  ∃ col, feature_over_time clip d = Some col ∧ length col = T ∧
         mean_over_time T D clip !! d = Some (Num (arith_mean col)).
Proof.
  intros HT Hlen Hclip Hd.
  destruct (feature_over_time_defined D clip d Hclip Hd) as (col & Hcol & Hlcol).
  exists col. split; [exact Hcol|]. split; [congruence|].
  unfold mean_over_time. destruct T as [|T]; [lia|].
  rewrite list_lookup_fmap. unfold add_reduce_slices.
  rewrite (foldl_vadd_lookup clip _ d 0%Qc col).
  - simpl. rewrite foldl_Qcplus, Qcplus_0_l. unfold arith_mean.
    rewrite Hlcol, Hlen. reflexivity.
  - apply lookup_replicate_2. assumption.
  - apply mapM_Some. exact Hcol.
Qed.

Lemma mean_over_time_length T D clip :
  Forall (λ v, length v = D) clip → length (mean_over_time T D clip) = D.
Proof.
  intros Hclip. unfold mean_over_time. destruct T as [|T].
  - apply length_replicate.
  - rewrite length_fmap. apply foldl_vadd_length; [apply length_replicate|assumption].
Qed.
End MeanFacts.

(** ** Slicing and selection (cells 25 and 28, steps 1 and 2) *)

Section SelectionFacts.
Import Numpy Pipeline Spec.

Lemma slice_Ok ds idx_train idx_test sd :
  slice ds idx_train idx_test = Ok sd →
  take_rows (X ds) idx_train = Ok (X_train sd) ∧
  take_rows (X ds) idx_test = Ok (X_test sd) ∧
  take_rows (Y_true ds) idx_train = Ok (Y_true_train sd) ∧
  take_rows (Y_true ds) idx_test = Ok (Y_true_test sd) ∧
  take_rows (Y_mask ds) idx_train = Ok (Y_mask_train sd) ∧
  take_rows (Y_mask ds) idx_test = Ok (Y_mask_test sd).
Proof.
  unfold slice. intros H.
  apply rbind_Ok in H as (a1 & H1 & H). apply rbind_Ok in H as (a2 & H2 & H).
  apply rbind_Ok in H as (a3 & H3 & H). apply rbind_Ok in H as (a4 & H4 & H).
  apply rbind_Ok in H as (a5 & H5 & H). apply rbind_Ok in H as (a6 & H6 & H).
  injection H as <-. simpl. auto 10.
Qed.

(** One side of the split: the rows kept for class [c] are the annotated
    rows of the index sequence, in its order, and the selected clips and
    label probabilities are those of these rows. *)
Lemma selection_spec ds C c idx Xs Ys Ms mask Xsel Ysel :
  take_rows (X ds) idx = Ok Xs →
  take_rows (Y_true ds) idx = Ok Ys →
  take_rows (Y_mask ds) idx = Ok Ms →
  column C Ms c = Ok mask →
  bool_index Xs mask = Ok Xsel →
  bool_index_column C Ys mask c = Ok Ysel →
  Forall (λ r, entry (Y_mask ds) r c = Some true) (annotated_rows ds c idx) ∧
  Forall2 (λ r clip, X ds !! r = Some clip) (annotated_rows ds c idx) Xsel ∧
  Forall2 (λ r p, entry (Y_true ds) r c = Some p) (annotated_rows ds c idx) Ysel.
Proof.
  intros HX%take_rows_Ok HY%take_rows_Ok HM%take_rows_Ok
         [_ Hmask]%column_Ok [_ ->]%bool_index_Ok HYsel.
  unfold bool_index_column in HYsel.
  apply rbind_Ok in HYsel as (rows & [_ ->]%bool_index_Ok & [_ Hcol]%column_Ok).
  assert (Hsel : select mask idx = annotated_rows ds c idx).
  { unfold annotated_rows. apply (select_filter (λ r, entry (Y_mask ds) r c)).
    eapply Forall2_impl; [exact (Forall2_compose _ _ _ _ _ HM Hmask)|].
    intros i b (row & Hrow & Hb). unfold entry. rewrite Hrow. exact Hb. }
  split.
  { apply Forall_forall. intros r Hr. unfold annotated_rows in Hr.
    apply list_elem_of_filter in Hr as [Hr _]. exact Hr. }
  rewrite <- Hsel. split.
  - apply select_Forall2. exact HX.
  - eapply Forall2_impl.
    + exact (Forall2_compose _ _ _ _ _ (select_Forall2 _ mask _ _ HY) Hcol).
    + intros i p (row & Hrow & Hp). unfold entry. rewrite Hrow. exact Hp.
Qed.

(** What [prepare] returns, for both sides of the split. *)
Lemma prepare_spec ds idx_train idx_test sd T D C c d :
  slice ds idx_train idx_test = Ok sd →
  prepare T D C sd c = Ok d →
  (Forall (λ r, entry (Y_mask ds) r c = Some true) (annotated_rows ds c idx_train) ∧
   Forall2 (λ r x, ∃ clip, X ds !! r = Some clip ∧ x = mean_over_time T D clip)
           (annotated_rows ds c idx_train) (X_train_inst_sklearn d) ∧
   Forall2 (λ r y, ∃ p, entry (Y_true ds) r c = Some p ∧ y = ge_half p)
           (annotated_rows ds c idx_train) (Y_true_train_inst d)) ∧
  (Forall (λ r, entry (Y_mask ds) r c = Some true) (annotated_rows ds c idx_test) ∧
   Forall2 (λ r x, ∃ clip, X ds !! r = Some clip ∧ x = mean_over_time T D clip)
           (annotated_rows ds c idx_test) (X_test_inst_sklearn d) ∧
   Forall2 (λ r y, ∃ p, entry (Y_true ds) r c = Some p ∧ y = ge_half p)
           (annotated_rows ds c idx_test) (Y_true_test_inst d)).
Proof.
  intros (HX1 & HX2 & HY1 & HY2 & HM1 & HM2)%slice_Ok Hprep.
  unfold prepare in Hprep.
  apply rbind_Ok in Hprep as (train_inst & Hm1 & Hprep).
  apply rbind_Ok in Hprep as (test_inst & Hm2 & Hprep).
  apply rbind_Ok in Hprep as (Xsel1 & Hx1 & Hprep).
  apply rbind_Ok in Hprep as (Ysel1 & Hy1 & Hprep).
  apply rbind_Ok in Hprep as (Xsel2 & Hx2 & Hprep).
  apply rbind_Ok in Hprep as (Ysel2 & Hy2 & Hprep).
  injection Hprep as <-. simpl.
  destruct (selection_spec ds C c idx_train _ _ _ _ _ _ HX1 HY1 HM1 Hm1 Hx1 Hy1)
    as (Hmask1 & Hclips1 & Hprobs1).
  destruct (selection_spec ds C c idx_test _ _ _ _ _ _ HX2 HY2 HM2 Hm2 Hx2 Hy2)
    as (Hmask2 & Hclips2 & Hprobs2).
  unfold np_mean_axis1.
  repeat split; try assumption; apply Forall2_fmap_r;
    (eapply Forall2_impl; [eassumption|]); intros r v Hv;
    simpl in *; exists v; (split; [exact Hv|reflexivity]).
Qed.

Lemma take_rows_defined {A} (a : list A) idx :
  idx ≠ [] → Forall (λ i, i < length a) idx →
  ∃ rows, take_rows a idx = Ok rows ∧ length rows = length idx.
Proof.
  intros Hne Hidx.
  destruct (mapM_is_Some_2 (λ i, a !! i) idx) as [rows Hrows].
  - eapply Forall_impl; [exact Hidx|]. intros i Hi. simpl in *.
    apply lookup_lt_is_Some. exact Hi.
  - exists rows. unfold take_rows. destruct idx; [contradiction|].
    rewrite Hrows. split; [reflexivity|].
    apply mapM_Some, Forall2_length in Hrows. congruence.
Qed.

Lemma column_defined {A} ncols (m : list (list A)) c :
  c < ncols → Forall (λ row, length row = ncols) m →
  ∃ v, column ncols m c = Ok v ∧ length v = length m.
Proof.
  intros Hc Hm.
  destruct (mapM_is_Some_2 (λ row : list A, row !! c) m) as [v Hv].
  - eapply Forall_impl; [exact Hm|]. intros row Hrow. simpl in *.
    apply lookup_lt_is_Some. lia.
  - exists v. unfold column. destruct (decide (c < ncols)); [|contradiction].
    rewrite Hv. split; [reflexivity|].
    apply mapM_Some, Forall2_length in Hv. congruence.
Qed.

Lemma taken_rows_Forall {A} (P : A → Prop) (a : list A) idx rows :
  Forall P a → take_rows a idx = Ok rows → Forall P rows.
Proof.
  intros Ha Hrows%take_rows_Ok. rewrite Forall_forall in Ha.
  induction Hrows as [|i x idx rows Hx _ IH]; constructor; [|exact IH].
  apply Ha, list_elem_of_lookup. eauto.
Qed.

Lemma select_Forall {A} (P : A → Prop) mask (l : list A) :
  Forall P l → Forall P (select mask l).
Proof.
  intros Hl. revert mask. induction Hl as [|x l Hx Hl IH]; intros mask.
  - destruct mask; constructor.
  - destruct mask as [|[] mask]; simpl; [constructor| |apply IH].
    constructor; [assumption|apply IH].
Qed.

(** On a well-shaped data set, with non-empty index sequences of valid
    row numbers and a valid class column, both cells return. *)
Lemma prepare_returns ds idx_train idx_test c :
  well_shaped ds →
  idx_train ≠ [] → idx_test ≠ [] →
  Forall (λ i, i < length (sample_key ds)) idx_train →
  Forall (λ i, i < length (sample_key ds)) idx_test →
  c < dimC ds →
  ∃ sd d, slice ds idx_train idx_test = Ok sd ∧
          prepare (dimT ds) (dimD ds) (dimC ds) sd c = Ok d.
Proof.
  intros (HlX & HlY & HlM & HX & HY & HM) Hne1 Hne2 Hi1 Hi2 Hc.
  rewrite <- HlX in Hi1, Hi2.
  destruct (take_rows_defined (X ds) idx_train Hne1 Hi1) as (x1 & Hx1 & Lx1).
  destruct (take_rows_defined (X ds) idx_test Hne2 Hi2) as (x2 & Hx2 & Lx2).
  rewrite HlX, <- HlY in Hi1, Hi2.
  destruct (take_rows_defined (Y_true ds) idx_train Hne1 Hi1) as (y1 & Hy1 & Ly1).
  destruct (take_rows_defined (Y_true ds) idx_test Hne2 Hi2) as (y2 & Hy2 & Ly2).
  rewrite HlY, <- HlM in Hi1, Hi2.
  destruct (take_rows_defined (Y_mask ds) idx_train Hne1 Hi1) as (m1 & Hm1 & Lm1).
  destruct (take_rows_defined (Y_mask ds) idx_test Hne2 Hi2) as (m2 & Hm2 & Lm2).
  destruct (column_defined (dimC ds) m1 c Hc (taken_rows_Forall _ _ _ _ HM Hm1))
    as (t1 & Ht1 & Lt1).
  destruct (column_defined (dimC ds) m2 c Hc (taken_rows_Forall _ _ _ _ HM Hm2))
    as (t2 & Ht2 & Lt2).
  destruct (column_defined (dimC ds) (select t1 y1) c Hc
              (select_Forall _ _ _ (taken_rows_Forall _ _ _ _ HY Hy1)))
    as (s1 & Hs1 & _).
  destruct (column_defined (dimC ds) (select t2 y2) c Hc
              (select_Forall _ _ _ (taken_rows_Forall _ _ _ _ HY Hy2)))
    as (s2 & Hs2 & _).
  eexists _, _. unfold slice.
  rewrite Hx1, Hx2, Hy1, Hy2, Hm1, Hm2. simpl. split; [reflexivity|].
  unfold prepare, bool_index_column, bool_index. simpl.
  rewrite Ht1, Ht2. simpl.
  destruct (decide (length t1 = length x1)); [|lia].
  destruct (decide (length t1 = length y1)); [|lia].
  destruct (decide (length t2 = length x2)); [|lia].
  destruct (decide (length t2 = length y2)); [|lia].
  simpl. rewrite Hs1, Hs2. simpl. reflexivity.
Qed.
End SelectionFacts.

(** ** Claims about the data handed to the classifier *)

Section PreparationClaims.
Import Numpy Pipeline Spec.

(** C2.  For a class column [c], what the loop body passes to [fit], to
    [predict] and to the scorer is built row by row from the annotated rows
    of the train indices and of the test indices, in their order, and every
    one of these rows has [Y_mask[row, c]] set.  The classifier and the
    scorer receive nothing else. *)
Theorem only_annotated_rows_are_used {model : Type}
    (fit : list (list num) → list bool → result model)
    (predict : model → list (list num) → result (list bool))
    (precision_recall_fscore_support :
       list bool → list bool → result (Qc * Qc * Qc * support_t))
    (ds : dataset) (idx_train idx_test : list nat) (sd : split_data)
    (T D C c : nat) (d : class_data) :
  slice ds idx_train idx_test = Ok sd →
  prepare T D C sd c = Ok d →
  Forall (λ r, r ∈ idx_train ∧ entry (Y_mask ds) r c = Some true)
         (annotated_rows ds c idx_train) ∧
  Forall2 (λ r x, ∃ clip, X ds !! r = Some clip ∧ x = mean_over_time T D clip)
          (annotated_rows ds c idx_train) (X_train_inst_sklearn d) ∧
  Forall2 (λ r y, ∃ p, entry (Y_true ds) r c = Some p ∧ y = ge_half p)
          (annotated_rows ds c idx_train) (Y_true_train_inst d) ∧
  Forall (λ r, r ∈ idx_test ∧ entry (Y_mask ds) r c = Some true)
         (annotated_rows ds c idx_test) ∧
  Forall2 (λ r x, ∃ clip, X ds !! r = Some clip ∧ x = mean_over_time T D clip)
          (annotated_rows ds c idx_test) (X_test_inst_sklearn d) ∧
  Forall2 (λ r y, ∃ p, entry (Y_true ds) r c = Some p ∧ y = ge_half p)
          (annotated_rows ds c idx_test) (Y_true_test_inst d) ∧
  ∀ st instrument,
    class_step fit predict precision_recall_fscore_support T D C sd
               st instrument c =
    (xgb_model ←! fit (X_train_inst_sklearn d) (Y_true_train_inst d);
     Y_pred_train ←! predict xgb_model (X_train_inst_sklearn d);
     Y_pred_test ←! predict xgb_model (X_test_inst_sklearn d);
     '(precision, recall, fscore, support) ←!
        precision_recall_fscore_support (Y_true_test_inst d) Y_pred_test;
     Ok (RunState (<[instrument := xgb_model]> (models st))
                  (precision_lst st ++ [precision])
                  (recall_lst st ++ [recall])
                  (fscore_lst st ++ [fscore])
                  (support_lst st))).
Proof.
  intros Hslice Hprep.
  destruct (prepare_spec ds idx_train idx_test sd T D C c d Hslice Hprep)
    as ((Hm1 & Hx1 & Hy1) & (Hm2 & Hx2 & Hy2)).
  assert (Hin : ∀ idx, Forall (λ r, entry (Y_mask ds) r c = Some true)
                              (annotated_rows ds c idx) →
                       Forall (λ r, r ∈ idx ∧ entry (Y_mask ds) r c = Some true)
                              (annotated_rows ds c idx)).
  { intros idx _. apply Forall_forall. intros r Hr. unfold annotated_rows in Hr.
    apply list_elem_of_filter in Hr as [? ?]. auto. }
  repeat split; auto.
  intros st instrument. unfold class_step. rewrite Hprep. reflexivity.
Qed.

Lemma only_annotated_rows_are_used_witness :
  Forall (λ r, r ∈ [0; 2] ∧ entry (Y_mask Demo.demo_ds) r 1 = Some true)
         (annotated_rows Demo.demo_ds 1 [0; 2]) ∧
  annotated_rows Demo.demo_ds 1 [0; 2] = [2] ∧
  Y_true_train_inst (Demo.demo_class 1) = [true].
Proof.
  destruct (only_annotated_rows_are_used
              Demo.demo_fit Demo.demo_predict Demo.demo_score
              Demo.demo_ds [0; 2] [1; 3] Demo.demo_sd 2 2 3 1
              (Demo.demo_class 1))
    as (Hrows & _).
  - by_computation.
  - by_computation.
  - split; [exact Hrows|]. split; reflexivity.
Defined.

(** C3.  The label passed on for a selected row is [true] exactly when its
    probability [Y_true[row, c]] is at least one half, on the train side
    and on the test side alike: one half itself gives [true], and anything
    below it, 0.4999 for one, gives [false]. *)
Theorem labels_threshold_at_half
    (ds : dataset) (idx_train idx_test : list nat) (sd : split_data)
    (T D C c : nat) (d : class_data) :
  slice ds idx_train idx_test = Ok sd →
  prepare T D C sd c = Ok d →
  Forall2 (λ r y, ∃ p, entry (Y_true ds) r c = Some p ∧
                       (y = true ↔ (Q2Qc (1 # 2) ≤ p)%Qc) ∧
                       (y = false ↔ (p < Q2Qc (1 # 2))%Qc))
          (annotated_rows ds c idx_train) (Y_true_train_inst d) ∧
  Forall2 (λ r y, ∃ p, entry (Y_true ds) r c = Some p ∧
                       (y = true ↔ (Q2Qc (1 # 2) ≤ p)%Qc) ∧
                       (y = false ↔ (p < Q2Qc (1 # 2))%Qc))
          (annotated_rows ds c idx_test) (Y_true_test_inst d) ∧
  ge_half (Q2Qc (1 # 2)) = true ∧
  ge_half (Q2Qc (4999 # 10000)) = false.
Proof.
  intros Hslice Hprep.
  destruct (prepare_spec ds idx_train idx_test sd T D C c d Hslice Hprep)
    as ((_ & _ & Hy1) & (_ & _ & Hy2)).
  split; [|split; [|split; vm_compute; reflexivity]].
  - eapply Forall2_impl; [exact Hy1|]. intros r y (p & Hp & ->).
    exists p. split; [exact Hp|]. split; [apply ge_half_true|apply ge_half_false].
  - eapply Forall2_impl; [exact Hy2|]. intros r y (p & Hp & ->).
    exists p. split; [exact Hp|]. split; [apply ge_half_true|apply ge_half_false].
Qed.

Lemma labels_threshold_at_half_witness :
  Y_true_train_inst (Demo.demo_class 0) = [true; false] ∧
  Y_true_test_inst (Demo.demo_class 0) = [false; true] ∧
  ge_half (Q2Qc (1 # 2)) = true ∧
  ge_half (Q2Qc (4999 # 10000)) = false.
Proof.
  destruct (labels_threshold_at_half
              Demo.demo_ds [0; 2] [1; 3] Demo.demo_sd 2 2 3 0
              (Demo.demo_class 0))
    as (_ & _ & Hhalf & Hbelow).
  - by_computation.
  - by_computation.
  - split; [reflexivity|]. split; [reflexivity|]. split; [exact Hhalf|exact Hbelow].
Defined.

(** C4.  On a well-shaped data set with T > 0 slices per clip, the feature
    vector passed on for a selected row has D components, and component
    [i] is the arithmetic mean of feature [i] over the T slices of that
    row's clip.  The slices [1,1] and [3,3] reduce to [2,2]. *)
Theorem features_are_means_over_time
    (ds : dataset) (idx_train idx_test : list nat) (sd : split_data)
    (c : nat) (d : class_data) :
  well_shaped ds →
  0 < dimT ds →
  slice ds idx_train idx_test = Ok sd →
  prepare (dimT ds) (dimD ds) (dimC ds) sd c = Ok d →
  Forall2 (λ r v, ∃ clip, X ds !! r = Some clip ∧ length v = dimD ds ∧
             ∀ i, i < dimD ds →
               ∃ col, feature_over_time clip i = Some col ∧
                      length col = dimT ds ∧
                      v !! i = Some (Num (arith_mean col)))
          (annotated_rows ds c idx_train) (X_train_inst_sklearn d) ∧
  Forall2 (λ r v, ∃ clip, X ds !! r = Some clip ∧ length v = dimD ds ∧
             ∀ i, i < dimD ds →
               ∃ col, feature_over_time clip i = Some col ∧
                      length col = dimT ds ∧
                      v !! i = Some (Num (arith_mean col)))
          (annotated_rows ds c idx_test) (X_test_inst_sklearn d) ∧
  mean_over_time 2 2 [[Demo.q 1 1; Demo.q 1 1]; [Demo.q 3 1; Demo.q 3 1]]
    = [Num (Demo.q 2 1); Num (Demo.q 2 1)].
Proof.
  intros (_ & _ & _ & HX & _ & _) HT Hslice Hprep.
  destruct (prepare_spec ds idx_train idx_test sd _ _ _ c d Hslice Hprep)
    as ((_ & Hx1 & _) & (_ & Hx2 & _)).
  assert (Hrow : ∀ r v,
            (∃ clip, X ds !! r = Some clip ∧
                     v = mean_over_time (dimT ds) (dimD ds) clip) →
            ∃ clip, X ds !! r = Some clip ∧ length v = dimD ds ∧
              ∀ i, i < dimD ds →
                ∃ col, feature_over_time clip i = Some col ∧
                       length col = dimT ds ∧
                       v !! i = Some (Num (arith_mean col))).
  { intros r v (clip & Hclip & ->). exists clip. split; [exact Hclip|].
    rewrite Forall_lookup in HX. destruct (HX r clip Hclip) as [Hlen Hshape].
    split; [apply mean_over_time_length; exact Hshape|].
    intros i Hi. apply mean_over_time_spec; assumption. }
  split; [|split].
  - eapply Forall2_impl; [exact Hx1|]. exact Hrow.
  - eapply Forall2_impl; [exact Hx2|]. exact Hrow.
  - by_computation.
Qed.

Lemma features_are_means_over_time_witness :
  X_train_inst_sklearn (Demo.demo_class 0)
    = [[Num (Demo.q 2 1); Num (Demo.q 2 1)]; [Num (Demo.q 2 1); Num (Demo.q 2 1)]] ∧
  mean_over_time 2 2 [[Demo.q 1 1; Demo.q 1 1]; [Demo.q 3 1; Demo.q 3 1]]
    = [Num (Demo.q 2 1); Num (Demo.q 2 1)].
Proof.
  destruct (features_are_means_over_time
              Demo.demo_ds [0; 2] [1; 3] Demo.demo_sd 0 (Demo.demo_class 0))
    as (_ & _ & Hex).
  - by_computation.
  - simpl. lia.
  - by_computation.
  - by_computation.
  - split; [by_computation|exact Hex].
Defined.
End PreparationClaims.

(** ** The per-instrument loop *)

Section LoopFacts.
Import Numpy Pipeline Spec.
Context {model : Type}.
Variable fit : list (list num) → list bool → result model.
Variable predict : model → list (list num) → result (list bool).
Variable score : list bool → list bool → result (Qc * Qc * Qc * support_t).
Variables T D C : nat.
Variable sd : split_data.

(** An iteration either records the outcome of its class or passes on
    the exception; it looks at nothing else. *)
Lemma class_step_outcome st instrument inst_num :
  class_step fit predict score T D C sd st instrument inst_num =
  match class_outcome fit predict score T D C sd inst_num with
  | Ok o => Ok (record st instrument o)
  | Raise e => Raise e
  end.
Proof.
  unfold class_step, class_outcome.
  destruct (prepare T D C sd inst_num) as [d|e]; simpl; [|reflexivity].
  destruct (fit _ _) as [m|e]; simpl; [|reflexivity].
  destruct (predict m (X_train_inst_sklearn d)) as [p1|e]; simpl; [|reflexivity].
  destruct (predict m (X_test_inst_sklearn d)) as [p2|e]; simpl; [|reflexivity].
  destruct (score _ _) as [[[[p r] f] s]|e]; reflexivity.
Qed.

Lemma outcomes_Ok cm os :
  outcomes fit predict score T D C sd cm = Ok os ↔
  Forall2 (λ item o, class_outcome fit predict score T D C sd item.2 = Ok o) cm os.
Proof.
  revert os. induction cm as [|[name c] cm IH]; intros os; simpl.
  - split; [intros [= <-]; constructor|intros H; inversion H; reflexivity].
  - split.
    + intros (o & Ho & (os' & Hos & [= <-])%rbind_Ok)%rbind_Ok.
      constructor; [exact Ho|apply IH, Hos].
    + intros H. inversion H as [|? o ? os' Ho Hos]; subst. simpl in Ho.
      rewrite Ho. simpl. apply IH in Hos. rewrite Hos. reflexivity.
Qed.

Lemma class_loop_all cm os st :
  Forall2 (λ item o, class_outcome fit predict score T D C sd item.2 = Ok o) cm os →
  class_loop fit predict score T D C sd cm st = (record_all st cm os, None).
Proof.
  intros H. revert st. induction H as [|[name c] o cm os Ho _ IH]; intros st.
  - reflexivity.
  - simpl in *. rewrite class_step_outcome, Ho. apply IH.
Qed.

Lemma class_loop_abort pre instrument inst_num post os e st :
  Forall2 (λ item o, class_outcome fit predict score T D C sd item.2 = Ok o) pre os →
  class_outcome fit predict score T D C sd inst_num = Raise e →
  class_loop fit predict score T D C sd (pre ++ (instrument, inst_num) :: post) st
  = (record_all st pre os, Some e).
Proof.
  intros H He. revert st. induction H as [|[name c] o cm os Ho _ IH]; intros st.
  - simpl. rewrite class_step_outcome, He. reflexivity.
  - simpl in *. rewrite class_step_outcome, Ho. apply IH.
Qed.

Lemma outcomes_Raise cm e :
  outcomes fit predict score T D C sd cm = Raise e →
  ∃ pre instrument inst_num post os,
    cm = pre ++ (instrument, inst_num) :: post ∧
    Forall2 (λ item o, class_outcome fit predict score T D C sd item.2 = Ok o) pre os ∧
    class_outcome fit predict score T D C sd inst_num = Raise e.
Proof.
  induction cm as [|[name c] cm IH]; simpl; [discriminate|].
  destruct (class_outcome fit predict score T D C sd c) as [o|e'] eqn:Ho; simpl.
  - destruct (outcomes fit predict score T D C sd cm) as [os|e'] eqn:Hos;
      simpl; [discriminate|].
    intros [= ->].
    destruct (IH eq_refl) as (pre & name' & c' & post & os & -> & Hpre & He).
    exists ((name, c) :: pre), name', c', post, (o :: os).
    split; [reflexivity|]. split; [constructor; assumption|assumption].
  - intros [= ->]. exists [], name, c, cm, []. split; [reflexivity|].
    split; [constructor|assumption].
Qed.

(** Cell 28 in terms of the outcomes of the classes. *)
Lemma fit_models_outcomes cm :
  fit_models fit predict score T D C sd cm =
  match outcomes fit predict score T D C sd cm with
  | Ok os => Ok (record_all init_state cm os,
                 averages (record_all init_state cm os))
  | Raise e => Raise e
  end.
Proof.
  unfold fit_models.
  destruct (outcomes fit predict score T D C sd cm) as [os|e] eqn:Hos.
  - apply outcomes_Ok in Hos. rewrite (class_loop_all cm os) by assumption.
    reflexivity.
  - apply outcomes_Raise in Hos
      as (pre & name & c & post & os & -> & Hpre & He).
    rewrite (class_loop_abort pre name c post os e) by assumption.
    reflexivity.
Qed.

Lemma record_all_lists (st : run_state model) cm os :
  length cm = length os →
  precision_lst (record_all st cm os)
    = precision_lst st ++ (precision_of <$> os) ∧
  recall_lst (record_all st cm os)
    = recall_lst st ++ (recall_of <$> os) ∧
  fscore_lst (record_all st cm os)
    = fscore_lst st ++ (fscore_of <$> os) ∧
  support_lst (record_all st cm os) = support_lst st.
Proof.
  revert os st. induction cm as [|[name c] cm IH]; intros [|o os] st Hlen;
    try discriminate; simpl.
  - rewrite !app_nil_r. auto.
  - destruct (IH os (record st name o)) as (Hp & Hr & Hf & Hs);
      [simpl in Hlen; lia|].
    rewrite Hp, Hr, Hf, Hs. simpl. rewrite <- !app_assoc. auto.
Qed.

Lemma record_all_models (st : run_state model) cm os instrument :
  length cm = length os →
  is_Some (models (record_all st cm os) !! instrument) ↔
  is_Some (models st !! instrument) ∨ instrument ∈ cm.*1.
Proof.
  revert os st. induction cm as [|[name c] cm IH]; intros [|o os] st Hlen;
    try discriminate; simpl.
  - rewrite elem_of_nil. tauto.
  - rewrite IH by (simpl in Hlen; lia). simpl.
    rewrite lookup_insert_is_Some, elem_of_cons.
    destruct (decide (name = instrument)); split; intros; intuition congruence.
Qed.
End LoopFacts.

(** ** Sums and means under reordering *)

Section AggregateFacts.
Import Numpy Pipeline Spec.

Lemma sum_Qc_perm xs ys : xs ≡ₚ ys → sum_Qc xs = sum_Qc ys.
Proof.
  induction 1 as [|x xs ys _ IH|x y xs|xs ys zs _ IH1 _ IH2]; simpl.
  - reflexivity.
  - rewrite IH. reflexivity.
  - rewrite !Qcplus_assoc, (Qcplus_comm y x). reflexivity.
  - congruence.
Qed.

Context {model : Type}.
Variable fit : list (list num) → list bool → result model.
Variable predict : model → list (list num) → result (list bool).
Variable score : list bool → list bool → result (Qc * Qc * Qc * support_t).
Variables T D C : nat.
Variable sd : split_data.

Lemma averages_record_all cm (os : list (model * (Qc * Qc * Qc))) :
  length cm = length os →
  averages (record_all init_state cm os)
  = (np_mean (precision_of <$> os), np_mean (recall_of <$> os),
     np_mean (fscore_of <$> os)).
Proof.
  intros Hlen. unfold averages.
  destruct (record_all_lists init_state cm os Hlen) as (-> & -> & -> & _).
  reflexivity.
Qed.

(** Reordering the classes reorders their outcomes, and a run that stops
    in one order stops in every order. *)
Lemma outcomes_perm cm cm' :
  cm ≡ₚ cm' →
  match outcomes fit predict score T D C sd cm,
        outcomes fit predict score T D C sd cm' with
  | Ok os, Ok os' => os ≡ₚ os'
  | Raise _, Raise _ => True
  | _, _ => False
  end.
Proof.
  induction 1 as [|[name c] cm cm' _ IH|[n1 c1] [n2 c2] cm|cm1 cm2 cm3 _ IH1 _ IH2];
    simpl.
  - reflexivity.
  - destruct (class_outcome fit predict score T D C sd c); simpl; [|exact I].
    destruct (outcomes fit predict score T D C sd cm),
             (outcomes fit predict score T D C sd cm'); simpl;
      try exact IH; try exact I.
    constructor. exact IH.
  - destruct (class_outcome fit predict score T D C sd c1),
             (class_outcome fit predict score T D C sd c2); simpl; try exact I;
      destruct (outcomes fit predict score T D C sd cm); simpl; try exact I.
    apply perm_swap.
  - destruct (outcomes fit predict score T D C sd cm1),
             (outcomes fit predict score T D C sd cm2),
             (outcomes fit predict score T D C sd cm3);
      try exact I; try contradiction.
    etransitivity; eassumption.
Qed.

Lemma arith_mean_perm xs ys : xs ≡ₚ ys → arith_mean xs = arith_mean ys.
Proof.
  intros Hperm. unfold arith_mean.
  rewrite (sum_Qc_perm _ _ Hperm), (Permutation_length Hperm). reflexivity.
Qed.

Lemma fit_models_same_up_to_order cm cm' :
  cm ≡ₚ cm' →
  Reordering.same_up_to_order
    (fit_models fit predict score T D C sd cm)
    (fit_models fit predict score T D C sd cm').
Proof.
  intros Hperm. rewrite !fit_models_outcomes.
  pose proof (outcomes_perm cm cm' Hperm) as Hos.
  destruct (outcomes fit predict score T D C sd cm) as [os|e] eqn:H1,
           (outcomes fit predict score T D C sd cm') as [os'|e'] eqn:H2;
    try contradiction; [|exact I].
  apply outcomes_Ok, Forall2_length in H1.
  apply outcomes_Ok, Forall2_length in H2.
  unfold Reordering.same_up_to_order.
  destruct (record_all_lists init_state cm os H1) as (-> & -> & -> & _).
  destruct (record_all_lists init_state cm' os' H2) as (-> & -> & -> & _).
  simpl.
  assert (Hp : precision_of <$> os ≡ₚ precision_of <$> os')
    by (apply fmap_Permutation; exact Hos).
  assert (Hr : recall_of <$> os ≡ₚ recall_of <$> os')
    by (apply fmap_Permutation; exact Hos).
  assert (Hf : fscore_of <$> os ≡ₚ fscore_of <$> os')
    by (apply fmap_Permutation; exact Hos).
  split; [auto|]. auto using arith_mean_perm.
Qed.
End AggregateFacts.

(** ** Claims about the loop and the averages *)

Section LoopClaims.
Import Numpy Pipeline Spec.
Context {model : Type}.
Variable fit : list (list num) → list bool → result model.
Variable predict : model → list (list num) → result (list bool).
Variable score : list bool → list bool → result (Qc * Qc * Qc * support_t).
Variables T D C : nat.
Variable sd : split_data.

(** Two scorers that return the same three scores, whatever they return as
    support, give the same run. *)
Lemma support_is_ignored (score' : list bool → list bool → result (Qc * Qc * Qc * support_t)) cm :
  (∀ t p, match score t p, score' t p with
          | Ok (s, _), Ok (s', _) => s = s'
          | Raise e, Raise e' => e = e'
          | _, _ => False
          end) →
  fit_models fit predict score T D C sd cm
  = fit_models fit predict score' T D C sd cm.
Proof.
  intros Hagree.
  assert (Hout : ∀ c, class_outcome fit predict score T D C sd c
                      = class_outcome fit predict score' T D C sd c).
  { intros c. unfold class_outcome.
    destruct (prepare T D C sd c) as [d|e]; simpl; [|reflexivity].
    destruct (fit _ _) as [m|e]; simpl; [|reflexivity].
    destruct (predict m (X_train_inst_sklearn d)) as [p1|e]; simpl; [|reflexivity].
    destruct (predict m (X_test_inst_sklearn d)) as [p2|e]; simpl; [|reflexivity].
    specialize (Hagree (Y_true_test_inst d) p2).
    destruct (score _ _) as [[[[p r] f] s]|e], (score' _ _) as [[[[p' r'] f'] s']|e'];
      simpl; try contradiction; congruence. }
  rewrite !fit_models_outcomes.
  assert (Hos : outcomes fit predict score T D C sd cm
                = outcomes fit predict score' T D C sd cm).
  { induction cm as [|[name c] cm IH]; simpl; [reflexivity|].
    rewrite Hout, IH. reflexivity. }
  rewrite Hos. reflexivity.
Qed.

(** C5.  When every class goes through, the three numbers printed are, for
    precision, recall and F1 alike, the sum of the per-class values divided
    by the number of classes: each class counts once, and the support that
    the scorer returns plays no part. *)
Theorem headline_scores_are_unweighted_means
    (score' : list bool → list bool → result (Qc * Qc * Qc * support_t))
    (cm : list (string * nat)) (os : list (model * (Qc * Qc * Qc))) :
  cm ≠ [] →
  Forall2 (λ item o, class_outcome fit predict score T D C sd item.2 = Ok o) cm os →
  (∃ st,
     fit_models fit predict score T D C sd cm
     = Ok (st, (Num (sum_Qc (precision_of <$> os) / Qc_of_nat (length cm))%Qc,
                Num (sum_Qc (recall_of <$> os) / Qc_of_nat (length cm))%Qc,
                Num (sum_Qc (fscore_of <$> os) / Qc_of_nat (length cm))%Qc)) ∧
     precision_lst st = precision_of <$> os ∧
     recall_lst st = recall_of <$> os ∧
     fscore_lst st = fscore_of <$> os ∧
     support_lst st = []) ∧
  ((∀ t p, match score t p, score' t p with
           | Ok (s, _), Ok (s', _) => s = s'
           | Raise e, Raise e' => e = e'
           | _, _ => False
           end) →
   fit_models fit predict score' T D C sd cm
   = fit_models fit predict score T D C sd cm).
Proof.
  intros Hne Hos. pose proof (Forall2_length _ _ _ Hos) as Hlen.
  split; [|intros Hagree; symmetry; apply support_is_ignored, Hagree].
  exists (record_all init_state cm os).
  rewrite fit_models_outcomes. apply outcomes_Ok in Hos. rewrite Hos.
  rewrite averages_record_all by assumption.
  destruct (record_all_lists init_state cm os Hlen) as (Hp & Hr & Hf & Hs).
  assert (os ≠ []) as Hne' by (intros ->; destruct cm; [contradiction|discriminate]).
  rewrite !np_mean_arith_mean by (destruct os; [contradiction|discriminate]).
  unfold arith_mean. rewrite !length_fmap, <- Hlen. auto.
Qed.

(** C9, amended.  Reordering the classes only reorders what is averaged:
    a run that stops in one order stops in every order, and when it
    returns, its precision, recall and F1 lists hold the same per-class
    values in both orders, with the same arithmetic means; this holds for
    cell 28 alone and for the notebook as a whole.  That the printed
    float64 numbers are the same is not part of the statement: [np.mean]
    adds the list in its order, and float64 sums depend on it. *)
Theorem class_order_only_reorders_the_metric_lists
    (ds : dataset) (train_set test_set : gset string)
    (cm cm' : list (string * nat)) :
  cm ≡ₚ cm' →
  Reordering.same_up_to_order
    (fit_models fit predict score T D C sd cm)
    (fit_models fit predict score T D C sd cm') ∧
  Reordering.same_up_to_order
    (notebook fit predict score ds train_set test_set cm)
    (notebook fit predict score ds train_set test_set cm').
Proof.
  intros Hperm. split; [apply fit_models_same_up_to_order, Hperm|].
  unfold notebook.
  destruct (Partitioner.partition (sample_key ds) train_set test_set)
    as [[idx_train idx_test]|e]; simpl; [|exact I].
  destruct (slice ds idx_train idx_test) as [sd'|e]; simpl; [|exact I].
  apply fit_models_same_up_to_order, Hperm.
Qed.

(** C7, amended.  The loop has no guard for degenerate classes.  When the
    library calls return for every class, every class, degenerate or not,
    has its classifier stored and adds one value to each of the three
    lists that are averaged.  When a call raises for some class, the run
    stops there with that exception: the classes before it are all that
    was recorded and no averages are reported. *)
Theorem degenerate_classes_are_not_skipped (cm : list (string * nat)) :
  (∀ os,
     Forall2 (λ item o, class_outcome fit predict score T D C sd item.2 = Ok o) cm os →
     ∃ st, fit_models fit predict score T D C sd cm = Ok (st, averages st) ∧
       length (precision_lst st) = length cm ∧
       length (recall_lst st) = length cm ∧
       length (fscore_lst st) = length cm ∧
       ∀ instrument inst_num,
         (instrument, inst_num) ∈ cm → is_Some (models st !! instrument)) ∧
  (∀ pre instrument inst_num post os e,
     cm = pre ++ (instrument, inst_num) :: post →
     Forall2 (λ item o, class_outcome fit predict score T D C sd item.2 = Ok o) pre os →
     class_outcome fit predict score T D C sd inst_num = Raise e →
     fit_models fit predict score T D C sd cm = Raise e ∧
     reported (fit_models fit predict score T D C sd cm) = None ∧
     (class_loop fit predict score T D C sd cm init_state).1
       = record_all init_state pre os ∧
     length (precision_lst (class_loop fit predict score T D C sd cm init_state).1)
       = length pre).
Proof.
  split.
  - intros os Hos. pose proof (Forall2_length _ _ _ Hos) as Hlen.
    exists (record_all init_state cm os).
    rewrite fit_models_outcomes. apply outcomes_Ok in Hos. rewrite Hos.
    split; [reflexivity|].
    destruct (record_all_lists init_state cm os Hlen) as (-> & -> & -> & _).
    simpl. rewrite !length_fmap.
    split; [auto|]. split; [auto|]. split; [auto|].
    intros instrument inst_num Hin.
    apply record_all_models; [assumption|]. right.
    apply list_elem_of_fmap. exists (instrument, inst_num). auto.
  - intros pre instrument inst_num post os e Hcm Hpre He.
    pose proof (Forall2_length _ _ _ Hpre) as Hlen.
    assert (Hloop : class_loop fit predict score T D C sd cm init_state
                    = (record_all init_state pre os, Some e)).
    { rewrite Hcm. apply class_loop_abort; assumption. }
    unfold fit_models. rewrite Hloop. simpl.
    split; [reflexivity|]. split; [reflexivity|]. split; [reflexivity|].
    destruct (record_all_lists init_state pre os Hlen) as (-> & _).
    simpl. rewrite length_fmap. auto.
Qed.
End LoopClaims.

Section LoopWitnesses.
Import Numpy Pipeline Spec Demo.

Lemma headline_scores_are_unweighted_means_witness :
  reported (demo_run [("flute", 0); ("piano", 1)])
  = Some (Num (q 5 8), Num (q 3 4), Num (q 2 3)).
Proof.
  destruct (headline_scores_are_unweighted_means
              demo_fit demo_predict demo_score 2 2 3 demo_sd demo_score
              [("flute", 0); ("piano", 1)]
              [(true, (q 1 4, q 1 2, q 1 3)); (true, (q 1 1, q 1 1, q 1 1))])
    as ((st & Hrun & _) & _).
  - discriminate.
  - repeat constructor; by_computation.
  - unfold demo_run. rewrite Hrun. unfold reported. simpl. by_computation.
Defined.

Lemma class_order_only_reorders_the_metric_lists_witness :
  Reordering.same_up_to_order
    (demo_run [("flute", 0); ("piano", 1)])
    (demo_run [("piano", 1); ("flute", 0)]).
Proof.
  apply (class_order_only_reorders_the_metric_lists
           demo_fit demo_predict demo_score 2 2 3 demo_sd
           demo_ds demo_train demo_test
           [("flute", 0); ("piano", 1)] [("piano", 1); ("flute", 0)]).
  apply perm_swap.
Defined.

(** C7, the claim as written fails.  In the small data set class 1 is
    degenerate (one annotated row on each side, both labelled [true]) and
    class 0 is not.  The run over both goes through, stores a classifier
    for class 1 and averages the scores of both classes: it prints
    (5/8, 3/4, 2/3), where class 0 alone gives (1/4, 1/2, 1/3). *)
Lemma degenerate_class_is_scored :
  ¬ degenerate_class 2 2 3 demo_sd 0 ∧
  degenerate_class 2 2 3 demo_sd 1 ∧
  reported (demo_run [("flute", 0); ("piano", 1)])
    = Some (Num (q 5 8), Num (q 3 4), Num (q 2 3)) ∧
  reported (demo_run [("flute", 0)])
    = Some (Num (q 1 4), Num (q 1 2), Num (q 1 3)) ∧
  final_state (demo_run [("flute", 0); ("piano", 1)])
    ≫= (λ st, models st !! "piano") = Some true ∧
  ¬ skips_degenerate_classes demo_fit demo_predict demo_score 2 2 3 demo_sd
      [("flute", 0); ("piano", 1)].
Proof.
  assert (Hdeg : degenerate_class 2 2 3 demo_sd 1) by by_computation.
  assert (Hst : final_state (demo_run [("flute", 0); ("piano", 1)])
                ≫= (λ st, models st !! "piano") = Some true) by by_computation.
  split; [by_computation|]. split; [exact Hdeg|].
  split; [by_computation|]. split; [by_computation|]. split; [exact Hst|].
  intros (st & avg & Hrun & Hskip & _).
  assert (Hin : ("piano", 1) ∈ [("flute", 0); ("piano", 1)])
    by (apply list_elem_of_further, list_elem_of_here).
  specialize (Hskip "piano" 1 Hin Hdeg).
  unfold demo_run in Hst. rewrite Hrun in Hst. simpl in Hst. congruence.
Qed.

Lemma degenerate_classes_are_not_skipped_witness :
  (∃ st, demo_run [("flute", 0); ("piano", 1)] = Ok (st, averages st) ∧
         length (precision_lst st) = 2) ∧
  demo_run [("flute", 0); ("voice", 2); ("piano", 1)]
    = Raise (ValueError "empty training set").
Proof.
  split.
  - destruct (proj1 (degenerate_classes_are_not_skipped
                       demo_fit demo_predict demo_score 2 2 3 demo_sd
                       [("flute", 0); ("piano", 1)])
                    [(true, (q 1 4, q 1 2, q 1 3)); (true, (q 1 1, q 1 1, q 1 1))])
      as (st & Hrun & Hlen & _).
    + repeat constructor; by_computation.
    + exists st. split; [exact Hrun|exact Hlen].
  - apply (proj2 (degenerate_classes_are_not_skipped
                    demo_fit demo_predict demo_score 2 2 3 demo_sd
                    [("flute", 0); ("voice", 2); ("piano", 1)])
                 [("flute", 0)] "voice" 2 [("piano", 1)]
                 [(true, (q 1 4, q 1 2, q 1 3))]
                 (ValueError "empty training set")).
    + reflexivity.
    + repeat constructor; by_computation.
    + by_computation.
Defined.
End LoopWitnesses.

Section Float64Averages.
Import PrimFloat.
#[local] Set Warnings "-inexact-float".

(** C9, the claim as written fails.  Three classes score 0.1, 0.2 and 0.3.
    Processed in this order the run prints 0.20000000000000004 for each
    average, processed in the opposite order it prints
    0.19999999999999998. *)
Lemma float64_averages_depend_on_class_order :
  [("flute", 0); ("piano", 1); ("voice", 2)]
    ≡ₚ [("voice", 2); ("piano", 1); ("flute", 0)] ∧
  Float64.printed_averages Float64.demo_scores
    [("flute", 0); ("piano", 1); ("voice", 2)]
  = Some (0.20000000000000004, 0.20000000000000004, 0.20000000000000004)%float ∧
  Float64.printed_averages Float64.demo_scores
    [("voice", 2); ("piano", 1); ("flute", 0)]
  = Some (0.19999999999999998, 0.19999999999999998, 0.19999999999999998)%float ∧
  Float64.printed_averages Float64.demo_scores
    [("flute", 0); ("piano", 1); ("voice", 2)]
  ≠ Float64.printed_averages Float64.demo_scores
      [("voice", 2); ("piano", 1); ("flute", 0)].
Proof.
  split; [|split; [|split]].
  - change [("flute", 0); ("piano", 1); ("voice", 2)]
      with (reverse [("voice", 2); ("piano", 1); ("flute", 0)]).
    apply reverse_Permutation.
  - vm_compute. reflexivity.
  - vm_compute. reflexivity.
  - intros Heq.
    apply (f_equal (λ o, match o with
                         | Some (p, _, _) => eqb p 0.20000000000000004
                         | None => false
                         end)) in Heq.
    vm_compute in Heq. discriminate.
Qed.
End Float64Averages.

(** * Further properties of the notebook *)

(** ** The partition, whatever the split sets *)

Section PartitionMore.
Import Partitioner Splits.

Lemma rows_of_length (P : string → Prop) `{!∀ k, Decision (P k)} start keys :
  length (rows_of P start keys) = length (filter P keys).
Proof.
  revert start. induction keys as [|k keys IH]; intros start; [reflexivity|].
  simpl. rewrite filter_cons.
  destruct (decide (P k)); simpl; rewrite IH; reflexivity.
Qed.

Lemma rows_of_none (P : string → Prop) `{!∀ k, Decision (P k)} start keys :
  Forall (λ k, ¬ P k) keys → rows_of P start keys = [].
Proof.
  intros Hall. revert start. induction Hall as [|k keys Hk _ IH]; intros start.
  - reflexivity.
  - simpl. destruct (decide (P k)); [contradiction|apply IH].
Qed.

Lemma partition_Ok_known keys train_set test_set tr te :
  partition keys train_set test_set = Ok (tr, te) →
  Forall (known train_set test_set) keys ∧
  tr = rows_of (in_train train_set) 0 keys ∧
  te = rows_of (in_test_only train_set test_set) 0 keys.
Proof.
  intros Hpart.
  destruct (known_or_first_unknown train_set test_set keys)
    as [Hall|(pre & k & post & Hkeys & Hpre & Hk)].
  - rewrite partition_known in Hpart by assumption.
    injection Hpart as <- <-. auto.
  - rewrite (partition_unknown _ _ _ pre k post) in Hpart by assumption.
    discriminate.
Qed.

Lemma loop_membership_ext sk tr te tr' te' start keys st :
  (∀ k, k ∈ keys → (k ∈ tr ↔ k ∈ tr') ∧ (k ∈ te ↔ k ∈ te')) →
  loop sk tr te (enumerate_from start keys) st
  = loop sk tr' te' (enumerate_from start keys) st.
Proof.
  revert start st. induction keys as [|k keys IH]; intros start st Hsame.
  - reflexivity.
  - destruct (Hsame k (list_elem_of_here _ _)) as [Htr Hte].
    assert (Hbody : body sk tr te st start k = body sk tr' te' st start k).
    { unfold body.
      destruct (decide (k ∈ tr)), (decide (k ∈ tr')); try reflexivity;
        try (exfalso; tauto).
      destruct (decide (k ∈ te)), (decide (k ∈ te')); try reflexivity;
        exfalso; tauto. }
    simpl. rewrite Hbody. destruct (body sk tr' te' st start k); [|reflexivity].
    apply IH. intros k' Hk'. apply Hsame, list_elem_of_further, Hk'.
Qed.

(** X1.  Whenever the cell returns, overlap between the sets or not, the
    two index sequences together rearrange [0 .. N-1]; a row is on the
    train side exactly when its key is in the train set, and on the test
    side exactly when its key is in the test set and not in the train set. *)
Theorem returned_partition_sorts_every_row
    (sample_key : list string) (train_set test_set : gset string)
    (idxTrain idxTest : list nat) :
  partition sample_key train_set test_set = Ok (idxTrain, idxTest) →
  idxTrain ++ idxTest ≡ₚ seq 0 (length sample_key) ∧
  (∀ j, j ∈ idxTrain ↔ ∃ k, sample_key !! j = Some k ∧ k ∈ train_set) ∧
  (∀ j, j ∈ idxTest ↔
        ∃ k, sample_key !! j = Some k ∧ (k ∉ train_set) ∧ k ∈ test_set).
Proof.
  intros (Hall & -> & ->)%partition_Ok_known.
  split; [apply rows_permutation, Hall|]. split.
  - intros j. rewrite rows_of_elem. split.
    + intros (m & k & -> & Hk & Hin). exists k. auto.
    + intros (k & Hk & Hin). exists j, k. auto.
  - intros j. rewrite rows_of_elem. split.
    + intros (m & k & -> & Hk & Hn & Hin). exists k. auto.
    + intros (k & Hk & Hn & Hin). exists j, k. unfold in_test_only. auto.
Qed.

Lemma returned_partition_sorts_every_row_witness :
  [0] ++ [1] ≡ₚ seq 0 2 ∧
  (∀ j, j ∈ [0] ↔ ∃ k, ["a"; "b"] !! j = Some k ∧ k ∈ ({["a"]} : gset string)).
Proof.
  destruct (returned_partition_sorts_every_row
              ["a"; "b"] {["a"]} {["a"; "b"]} [0] [1])
    as (Hperm & Htr & _).
  - vm_compute. reflexivity.
  - split; [exact Hperm|exact Htr].
Defined.

(** X2.  The partition looks at the split files only through the question
    whether a key of [sample_key] is listed: the order of a split file,
    repeated lines, and keys that name no clip of the data set change
    nothing, in cell 24 and so in the whole run. *)
Theorem partition_sees_only_membership {model : Type}
    (fit : list (list Numpy.num) → list bool → result model)
    (predict : model → list (list Numpy.num) → result (list bool))
    (score : list bool → list bool → result (Qc * Qc * Qc * Pipeline.support_t))
    (ds : Pipeline.dataset) (class_map : list (string * nat))
    (split_train split_test split_train' split_test' : list string) :
  (∀ k, k ∈ Pipeline.sample_key ds →
        (k ∈ split_train ↔ k ∈ split_train') ∧
        (k ∈ split_test ↔ k ∈ split_test')) →
  partition (Pipeline.sample_key ds) (key_set split_train) (key_set split_test)
  = partition (Pipeline.sample_key ds) (key_set split_train') (key_set split_test') ∧
  notebook_from_splits fit predict score ds split_train split_test class_map
  = notebook_from_splits fit predict score ds split_train' split_test' class_map.
Proof.
  intros Hsame.
  assert (Hpart : partition (Pipeline.sample_key ds)
                    (key_set split_train) (key_set split_test)
                  = partition (Pipeline.sample_key ds)
                      (key_set split_train') (key_set split_test')).
  { unfold partition, run_loop, enumerate.
    rewrite (loop_membership_ext (Pipeline.sample_key ds)
               (key_set split_train) (key_set split_test)
               (key_set split_train') (key_set split_test')).
    - reflexivity.
    - intros k Hk. unfold key_set. rewrite !elem_of_list_to_set.
      apply Hsame, Hk. }
  split; [exact Hpart|].
  unfold notebook_from_splits, Pipeline.notebook. rewrite Hpart. reflexivity.
Qed.

Lemma partition_sees_only_membership_witness :
  notebook_from_splits Demo.demo_fit Demo.demo_predict Demo.demo_score
    Demo.demo_ds ["c"; "a"] ["d"; "b"] [("flute", 0)]
  = notebook_from_splits Demo.demo_fit Demo.demo_predict Demo.demo_score
      Demo.demo_ds ["a"; "zz"; "c"; "a"] ["b"; "d"; "b"] [("flute", 0)].
Proof.
  apply (partition_sees_only_membership
           Demo.demo_fit Demo.demo_predict Demo.demo_score Demo.demo_ds
           [("flute", 0)] ["c"; "a"] ["d"; "b"]
           ["a"; "zz"; "c"; "a"] ["b"; "d"; "b"]).
  apply Forall_forall. by_computation.
Defined.

(** X3.  When a key in neither set stops the loop, the two Python lists
    hold exactly the rows that precede it: together they rearrange
    [0 .. p-1], where p is the position of the first such key. *)
Theorem aborted_loop_keeps_rows_before_unknown_key
    (pre : list string) (k : string) (post : list string)
    (train_set test_set : gset string) :
  Forall (known train_set test_set) pre →
  k ∉ train_set → k ∉ test_set →
  ∃ st, run_loop (pre ++ k :: post) train_set test_set
        = (st, Some (IndexError numpy_index_msg)) ∧
        idx_train st ++ idx_test st ≡ₚ seq 0 (length pre) ∧
        (∀ j, j ∈ idx_train st ↔ ∃ k', pre !! j = Some k' ∧ k' ∈ train_set).
Proof.
  intros Hpre Htr Hte.
  assert (Hk : ¬ known train_set test_set k) by (intros [?|?]; contradiction).
  eexists. split.
  - unfold run_loop, enumerate. apply loop_unknown; assumption.
  - simpl. split; [apply rows_permutation, Hpre|].
    intros j. rewrite rows_of_elem. split.
    + intros (m & k' & -> & Hk' & Hin). exists k'. auto.
    + intros (k' & Hk' & Hin). exists j, k'. auto.
Qed.

Lemma aborted_loop_keeps_rows_before_unknown_key_witness :
  ∃ st, run_loop (["a"; "b"] ++ "zz" :: ["c"]) {["a"; "c"]} {["b"]}
        = (st, Some (IndexError numpy_index_msg)) ∧
        idx_train st ++ idx_test st ≡ₚ seq 0 2.
Proof.
  destruct (aborted_loop_keeps_rows_before_unknown_key
              ["a"; "b"] "zz" ["c"] {["a"; "c"]} {["b"]})
    as (st & Hrun & Hperm & _).
  - by_computation.
  - by_computation.
  - by_computation.
  - exists st. split; [exact Hrun|exact Hperm].
Defined.

(** X4.  When the sample keys are distinct, neither split file repeats a
    key, every listed key names a clip and no key is in both files, a
    returned partition has as many train rows as the train file has lines
    and as many test rows as the test file has lines (the counts printed
    in cell 20 are the leading dimensions printed in cell 26). *)
Theorem split_sizes_match_index_sizes
    (sample_key split_train split_test : list string)
    (idxTrain idxTest : list nat) :
  NoDup sample_key → NoDup split_train → NoDup split_test →
  (∀ k, k ∈ split_train → k ∈ sample_key) →
  (∀ k, k ∈ split_test → k ∈ sample_key) →
  (∀ k, k ∈ split_train → k ∉ split_test) →
  partition sample_key (key_set split_train) (key_set split_test)
    = Ok (idxTrain, idxTest) →
  length idxTrain = length split_train ∧
  length idxTest = length split_test.
Proof.
  intros Hkeys Htr Hte Hsub1 Hsub2 Hdisj (_ & -> & ->)%partition_Ok_known.
  rewrite !rows_of_length. split; apply Permutation_length, NoDup_Permutation;
    try assumption; try (apply NoDup_filter; assumption).
  - intros k. rewrite list_elem_of_filter. unfold in_train, key_set.
    rewrite elem_of_list_to_set. split; [tauto|]. intros Hk; auto.
  - intros k. rewrite list_elem_of_filter. unfold in_test_only, key_set.
    rewrite !elem_of_list_to_set. split; [tauto|].
    intros Hk. split; [|auto]. split; [|assumption].
    intros Hk'. exact (Hdisj k Hk' Hk).
Qed.

Lemma split_sizes_match_index_sizes_witness :
  ∃ idxTrain idxTest,
    partition ["a"; "b"; "c"] (key_set ["c"; "a"]) (key_set ["b"])
      = Ok (idxTrain, idxTest) ∧
    length idxTrain = 2 ∧ length idxTest = 1.
Proof.
  exists [0; 2], [1].
  split; [vm_compute; reflexivity|].
  apply (split_sizes_match_index_sizes ["a"; "b"; "c"] ["c"; "a"] ["b"]).
  - by_computation.
  - by_computation.
  - by_computation.
  - apply Forall_forall. by_computation.
  - apply Forall_forall. by_computation.
  - apply Forall_forall. by_computation.
  - vm_compute. reflexivity.
Defined.
End PartitionMore.

(** ** Cell 25 and its place between cells 24 and 28 *)

Section SliceMore.
Import Partitioner Numpy Pipeline Spec.

Lemma take_rows_lookup {A} (a : list A) idx rows i r :
  take_rows a idx = Ok rows → idx !! i = Some r → rows !! i = a !! r.
Proof.
  intros Hrows%take_rows_Ok Hi.
  destruct (Forall2_lookup_l _ _ _ _ _ Hrows Hi) as (x & Hx & Hr).
  congruence.
Qed.

Lemma take_rows_length {A} (a : list A) idx rows :
  take_rows a idx = Ok rows → length rows = length idx.
Proof. intros Hrows%take_rows_Ok. symmetry. exact (Forall2_length _ _ _ Hrows). Qed.

Lemma take_rows_raises_IndexError {A} (a : list A) idx e :
  take_rows a idx = Raise e → ∃ msg, e = IndexError msg.
Proof.
  unfold take_rows. destruct idx; [intros [= <-]; eauto|].
  destruct (mapM _ _); simpl; [discriminate|intros [= <-]; eauto].
Qed.

Lemma slice_raises_IndexError ds idx_train idx_test e :
  slice ds idx_train idx_test = Raise e → ∃ msg, e = IndexError msg.
Proof.
  unfold slice.
  destruct (take_rows (X ds) idx_train) eqn:H1; simpl;
    [|intros [= <-]; eapply take_rows_raises_IndexError; eassumption].
  destruct (take_rows (X ds) idx_test) eqn:H2; simpl;
    [|intros [= <-]; eapply take_rows_raises_IndexError; eassumption].
  destruct (take_rows (Y_true ds) idx_train) eqn:H3; simpl;
    [|intros [= <-]; eapply take_rows_raises_IndexError; eassumption].
  destruct (take_rows (Y_true ds) idx_test) eqn:H4; simpl;
    [|intros [= <-]; eapply take_rows_raises_IndexError; eassumption].
  destruct (take_rows (Y_mask ds) idx_train) eqn:H5; simpl;
    [|intros [= <-]; eapply take_rows_raises_IndexError; eassumption].
  destruct (take_rows (Y_mask ds) idx_test) eqn:H6; simpl;
    [discriminate|intros [= <-]; eapply take_rows_raises_IndexError; eassumption].
Qed.

Lemma slice_Ok_nonempty ds idx_train idx_test sd :
  slice ds idx_train idx_test = Ok sd → idx_train ≠ [] ∧ idx_test ≠ [].
Proof.
  intros (H1 & H2 & _)%slice_Ok.
  split; intros ->; discriminate.
Qed.

Lemma slice_returns ds idx_train idx_test :
  well_shaped ds →
  idx_train ≠ [] → idx_test ≠ [] →
  Forall (λ i, i < length (sample_key ds)) idx_train →
  Forall (λ i, i < length (sample_key ds)) idx_test →
  ∃ sd, slice ds idx_train idx_test = Ok sd.
Proof.
  intros (HlX & HlY & HlM & _) Hne1 Hne2 Hi1 Hi2.
  rewrite <- HlX in Hi1, Hi2.
  destruct (take_rows_defined (X ds) idx_train Hne1 Hi1) as (x1 & Hx1 & _).
  destruct (take_rows_defined (X ds) idx_test Hne2 Hi2) as (x2 & Hx2 & _).
  rewrite HlX, <- HlY in Hi1, Hi2.
  destruct (take_rows_defined (Y_true ds) idx_train Hne1 Hi1) as (y1 & Hy1 & _).
  destruct (take_rows_defined (Y_true ds) idx_test Hne2 Hi2) as (y2 & Hy2 & _).
  rewrite HlY, <- HlM in Hi1, Hi2.
  destruct (take_rows_defined (Y_mask ds) idx_train Hne1 Hi1) as (m1 & Hm1 & _).
  destruct (take_rows_defined (Y_mask ds) idx_test Hne2 Hi2) as (m2 & Hm2 & _).
  eexists. unfold slice. rewrite Hx1, Hx2, Hy1, Hy2, Hm1, Hm2. reflexivity.
Qed.

Lemma partition_rows_in_range keys train_set test_set tr te :
  partition keys train_set test_set = Ok (tr, te) →
  Forall (λ i, i < length keys) tr ∧ Forall (λ i, i < length keys) te.
Proof.
  intros (_ & -> & ->)%partition_Ok_known.
  split; apply Forall_forall; intros j (m & k & -> & Hk & _)%rows_of_elem;
    apply lookup_lt_Some in Hk; lia.
Qed.

(** X5.  The six slices keep the arrays aligned: each has one row per
    index, and row [i] of the features, of the labels and of the mask on
    one side all come from the same row [idx[i]] of the data set. *)
Theorem slices_stay_row_aligned
    (ds : dataset) (idx_train idx_test : list nat) (sd : split_data) :
  slice ds idx_train idx_test = Ok sd →
  (length (X_train sd) = length idx_train ∧
   length (Y_true_train sd) = length idx_train ∧
   length (Y_mask_train sd) = length idx_train) ∧
  (length (X_test sd) = length idx_test ∧
   length (Y_true_test sd) = length idx_test ∧
   length (Y_mask_test sd) = length idx_test) ∧
  (∀ i r, idx_train !! i = Some r →
     X_train sd !! i = X ds !! r ∧
     Y_true_train sd !! i = Y_true ds !! r ∧
     Y_mask_train sd !! i = Y_mask ds !! r) ∧
  (∀ i r, idx_test !! i = Some r →
     X_test sd !! i = X ds !! r ∧
     Y_true_test sd !! i = Y_true ds !! r ∧
     Y_mask_test sd !! i = Y_mask ds !! r).
Proof.
  intros (HX1 & HX2 & HY1 & HY2 & HM1 & HM2)%slice_Ok.
  split; [repeat split; eapply take_rows_length; eassumption|].
  split; [repeat split; eapply take_rows_length; eassumption|].
  split; intros i r Hi; repeat split; eapply take_rows_lookup; eassumption.
Qed.

Lemma slices_stay_row_aligned_witness :
  length (X_train Demo.demo_sd) = 2 ∧
  X_train Demo.demo_sd !! 1 = X Demo.demo_ds !! 2 ∧
  Y_mask_train Demo.demo_sd !! 1 = Y_mask Demo.demo_ds !! 2.
Proof.
  destruct (slices_stay_row_aligned Demo.demo_ds [0; 2] [1; 3] Demo.demo_sd)
    as ((Hlen & _) & _ & Htrain & _).
  - by_computation.
  - destruct (Htrain 1 2 eq_refl) as (HX & _ & HM).
    split; [exact Hlen|]. split; [exact HX|exact HM].
Defined.

(** X6.  Cell 25 needs rows on both sides: when either index sequence is
    empty it raises [IndexError] (an empty list becomes an array of floats,
    which is no index), whatever the data set. *)
Theorem slice_refuses_an_empty_side
    (ds : dataset) (idx_train idx_test : list nat) :
  idx_train = [] ∨ idx_test = [] →
  ∃ msg, slice ds idx_train idx_test = Raise (IndexError msg).
Proof.
  intros Hempty.
  destruct (slice ds idx_train idx_test) as [sd|e] eqn:Hslice.
  - apply slice_Ok_nonempty in Hslice as [? ?]. destruct Hempty; contradiction.
  - apply slice_raises_IndexError in Hslice as [msg ->]. eauto.
Qed.

Lemma slice_refuses_an_empty_side_witness :
  ∃ msg, slice Demo.demo_ds [0; 1; 2; 3] [] = Raise (IndexError msg).
Proof.
  apply (slice_refuses_an_empty_side Demo.demo_ds [0; 1; 2; 3] []).
  right. reflexivity.
Defined.

(** X7.  On a well-shaped data set, index sequences returned by cell 24
    are valid row numbers: if both are non-empty, cell 25 returns, and the
    preparation of every class column below C returns as well. *)
Theorem partition_feeds_slice_and_prepare
    (ds : dataset) (train_set test_set : gset string)
    (idx_train idx_test : list nat) :
  well_shaped ds →
  partition (sample_key ds) train_set test_set = Ok (idx_train, idx_test) →
  idx_train ≠ [] → idx_test ≠ [] →
  ∃ sd, slice ds idx_train idx_test = Ok sd ∧
        ∀ c, c < dimC ds →
             ∃ d, prepare (dimT ds) (dimD ds) (dimC ds) sd c = Ok d.
Proof.
  intros Hshape [Hr1 Hr2]%partition_rows_in_range Hne1 Hne2.
  destruct (slice_returns ds idx_train idx_test) as [sd Hsd]; try assumption.
  exists sd. split; [exact Hsd|]. intros c Hc.
  destruct (prepare_returns ds idx_train idx_test c) as (sd' & d & Hsd' & Hd);
    try assumption.
  rewrite Hsd in Hsd'. injection Hsd' as <-. eauto.
Qed.

Lemma partition_feeds_slice_and_prepare_witness :
  ∃ sd, slice Demo.demo_ds [0; 2] [1; 3] = Ok sd ∧
        ∀ c, c < 3 → ∃ d, prepare 2 2 3 sd c = Ok d.
Proof.
  apply (partition_feeds_slice_and_prepare
           Demo.demo_ds Demo.demo_train Demo.demo_test [0; 2] [1; 3]).
  - by_computation.
  - vm_compute. reflexivity.
  - discriminate.
  - discriminate.
Defined.
End SliceMore.

Section NotebookMore.
Import Partitioner Numpy Pipeline Spec.
Context {model : Type}.
Variable fit : list (list num) → list bool → result model.
Variable predict : model → list (list num) → result (list bool).
Variable score : list bool → list bool → result (Qc * Qc * Qc * support_t).

(** X8.  A split that covers every sample key but leaves one side
    without rows gets through cell 24 and stops the notebook in cell 25:
    when every key is in the train set, or every key is in the test set
    and none in the train set, the partition is returned with an empty
    side, slicing with it raises [IndexError], and that is the result of
    the notebook, so no classifier is fitted. *)
Theorem notebook_needs_rows_on_both_sides
    (ds : dataset) (train_set test_set : gset string)
    (class_map : list (string * nat)) :
  Forall (λ k, k ∈ train_set) (sample_key ds) ∨
  (Forall (λ k, k ∉ train_set) (sample_key ds) ∧
   Forall (λ k, k ∈ test_set) (sample_key ds)) →
  ∃ idx_train idx_test msg,
    partition (sample_key ds) train_set test_set = Ok (idx_train, idx_test) ∧
    (idx_train = [] ∨ idx_test = []) ∧
    slice ds idx_train idx_test = Raise (IndexError msg) ∧
    notebook fit predict score ds train_set test_set class_map
    = Raise (IndexError msg).
Proof.
  intros Hside.
  assert (Hknown : Forall (known train_set test_set) (sample_key ds)).
  { destruct Hside as [Hall|[_ Hall]];
      (eapply Forall_impl; [exact Hall|]); intros k Hk; [left|right]; exact Hk. }
  assert (Hempty : rows_of (in_train train_set) 0 (sample_key ds) = [] ∨
                   rows_of (in_test_only train_set test_set) 0 (sample_key ds) = []).
  { destruct Hside as [Hall|[Hnone _]].
    - right. apply rows_of_none. eapply Forall_impl; [exact Hall|].
      intros k Hk [Hn _]. contradiction.
    - left. apply rows_of_none. exact Hnone. }
  pose proof (partition_known (sample_key ds) train_set test_set Hknown) as Hpart.
  destruct (slice ds (rows_of (in_train train_set) 0 (sample_key ds))
                     (rows_of (in_test_only train_set test_set) 0 (sample_key ds)))
    as [sd|e] eqn:Hslice.
  - apply slice_Ok_nonempty in Hslice as [? ?]. destruct Hempty; contradiction.
  - apply slice_raises_IndexError in Hslice as Hmsg. destruct Hmsg as [msg ->].
    eexists _, _, msg. split; [exact Hpart|]. split; [exact Hempty|].
    split; [exact Hslice|].
    unfold notebook. rewrite Hpart. simpl. rewrite Hslice. reflexivity.
Qed.

(** X9.  A sample key that is in neither split set stops the notebook in
    cell 24 with numpy's [IndexError]: nothing is sliced or fitted, and the
    class map and the libraries play no part in the result. *)
Theorem notebook_stops_at_unknown_key
    (ds : dataset) (train_set test_set : gset string)
    (class_map : list (string * nat)) (k : string) :
  k ∈ sample_key ds → k ∉ train_set → k ∉ test_set →
  notebook fit predict score ds train_set test_set class_map
  = Raise (IndexError numpy_index_msg).
Proof.
  intros Hin Htr Hte. unfold notebook.
  rewrite (unknown_key_IndexError _ _ _ k Hin Htr Hte). reflexivity.
Qed.
End NotebookMore.

Section NotebookMoreWitnesses.
Import Partitioner Numpy Pipeline Spec Demo.

Lemma notebook_needs_rows_on_both_sides_witness :
  ∃ idx_train idx_test msg,
    partition (sample_key demo_ds) {["a"; "b"; "c"; "d"]} ∅
      = Ok (idx_train, idx_test) ∧
    (idx_train = [] ∨ idx_test = []) ∧
    slice demo_ds idx_train idx_test = Raise (IndexError msg) ∧
    notebook demo_fit demo_predict demo_score demo_ds
      {["a"; "b"; "c"; "d"]} ∅ [("flute", 0)]
    = Raise (IndexError msg).
Proof.
  apply (notebook_needs_rows_on_both_sides demo_fit demo_predict demo_score
           demo_ds {["a"; "b"; "c"; "d"]} ∅ [("flute", 0)]).
  left. by_computation.
Defined.

Lemma notebook_stops_at_unknown_key_witness :
  notebook demo_fit demo_predict demo_score demo_ds
    {["a"; "c"]} {["b"]} [("flute", 0)]
  = Raise (IndexError numpy_index_msg).
Proof.
  apply (notebook_stops_at_unknown_key demo_fit demo_predict demo_score
           demo_ds {["a"; "c"]} {["b"]} [("flute", 0)] "d"); by_computation.
Defined.
End NotebookMoreWitnesses.

(** ** The per-instrument loop: bounds, shapes and the results it keeps *)

Section LoopMore.
Import Numpy Pipeline Spec.
Context {model : Type}.
Variable fit : list (list num) → list bool → result model.
Variable predict : model → list (list num) → result (list bool).
Variable score : list bool → list bool → result (Qc * Qc * Qc * support_t).
Variables T D C : nat.
Variable sd : split_data.

Lemma prepare_column_out_of_range c :
  C ≤ c → prepare T D C sd c = Raise (IndexError "index is out of bounds").
Proof.
  intros Hc. unfold prepare, column.
  destruct (decide (c < C)); [lia|]. reflexivity.
Qed.

Lemma record_all_models_notin (st : run_state model) cm os instrument :
  instrument ∉ cm.*1 →
  models (record_all st cm os) !! instrument = models st !! instrument.
Proof.
  revert os st. induction cm as [|[name c] cm IH]; intros os st Hnotin;
    [reflexivity|].
  destruct os as [|o os]; [reflexivity|]. simpl.
  rewrite fmap_cons, not_elem_of_cons in Hnotin. destruct Hnotin as [Hne Hnotin].
  rewrite IH by assumption. simpl. apply lookup_insert_ne.
  intros ->. apply Hne. reflexivity.
Qed.

Lemma record_all_models_lookup (st : run_state model) cm os instrument inst_num :
  Forall2 (λ item o, class_outcome fit predict score T D C sd item.2 = Ok o) cm os →
  NoDup cm.*1 →
  (instrument, inst_num) ∈ cm →
  ∃ o, class_outcome fit predict score T D C sd inst_num = Ok o ∧
       models (record_all st cm os) !! instrument = Some o.1.
Proof.
  intros Hos. revert st.
  induction Hos as [|[name c] o cm os Ho Hos IH]; intros st Hnodup Hin.
  - apply elem_of_nil in Hin. contradiction.
  - rewrite fmap_cons in Hnodup. apply NoDup_cons in Hnodup as [Hfresh Hnodup].
    apply elem_of_cons in Hin as [[= -> ->]|Hin]; simpl.
    + exists o. split; [exact Ho|].
      rewrite record_all_models_notin by exact Hfresh.
      simpl. apply lookup_insert_eq.
    + apply IH; assumption.
Qed.

Lemma class_outcome_scores inst_num o :
  class_outcome fit predict score T D C sd inst_num = Ok o →
  ∃ y_true y_pred support,
    score y_true y_pred = Ok (precision_of o, recall_of o, fscore_of o, support).
Proof.
  unfold class_outcome. intros H.
  apply rbind_Ok in H as (d & _ & H). apply rbind_Ok in H as (m & _ & H).
  apply rbind_Ok in H as (p1 & _ & H). apply rbind_Ok in H as (p2 & _ & H).
  apply rbind_Ok in H as ([[[p r] f] s] & Hs & H). injection H as <-.
  exists (Y_true_test_inst d), p2, s. exact Hs.
Qed.

Lemma class_loop_lists cm (st0 : run_state model) :
  ∃ n, n ≤ length cm ∧
    length (precision_lst (class_loop fit predict score T D C sd cm st0).1)
      = length (precision_lst st0) + n ∧
    length (recall_lst (class_loop fit predict score T D C sd cm st0).1)
      = length (recall_lst st0) + n ∧
    length (fscore_lst (class_loop fit predict score T D C sd cm st0).1)
      = length (fscore_lst st0) + n ∧
    support_lst (class_loop fit predict score T D C sd cm st0).1
      = support_lst st0.
Proof.
  revert st0. induction cm as [|[name c] cm IH]; intros st0.
  - exists 0. simpl. repeat split; lia.
  - simpl. rewrite class_step_outcome.
    destruct (class_outcome fit predict score T D C sd c) as [o|e].
    + destruct (IH (record st0 name o)) as (n & Hn & Hp & Hr & Hf & Hs).
      exists (S n). rewrite Hp, Hr, Hf, Hs. simpl. rewrite !length_app. simpl.
      repeat split; lia.
    + exists 0. simpl. repeat split; lia.
Qed.

(** X10.  A class whose column number is not below C stops the run with
    [IndexError] when the loop reaches it, before anything is fitted for
    it; the classes before it are all that was recorded. *)
Theorem class_column_out_of_range_stops_the_run
    (pre : list (string * nat)) (instrument : string) (inst_num : nat)
    (post : list (string * nat)) (os : list (model * (Qc * Qc * Qc))) :
  C ≤ inst_num →
  Forall2 (λ item o, class_outcome fit predict score T D C sd item.2 = Ok o) pre os →
  fit_models fit predict score T D C sd (pre ++ (instrument, inst_num) :: post)
    = Raise (IndexError "index is out of bounds") ∧
  (class_loop fit predict score T D C sd
     (pre ++ (instrument, inst_num) :: post) init_state).1
    = record_all init_state pre os.
Proof.
  intros Hc Hpre.
  assert (He : class_outcome fit predict score T D C sd inst_num
               = Raise (IndexError "index is out of bounds")).
  { unfold class_outcome. rewrite prepare_column_out_of_range by assumption.
    reflexivity. }
  unfold fit_models.
  rewrite (class_loop_abort fit predict score T D C sd pre instrument inst_num
             post os _ init_state Hpre He).
  split; reflexivity.
Qed.

(** X12.  After a run that went through a class map with distinct names,
    [models] has an entry for exactly the names of the map, and the entry
    of a name is the classifier fitted for its class column. *)
Theorem models_hold_the_classifier_of_each_class
    (cm : list (string * nat)) (st : run_state model) (avg : num * num * num) :
  NoDup cm.*1 →
  fit_models fit predict score T D C sd cm = Ok (st, avg) →
  (∀ instrument, is_Some (models st !! instrument) ↔ instrument ∈ cm.*1) ∧
  (∀ instrument inst_num, (instrument, inst_num) ∈ cm →
     ∃ o, class_outcome fit predict score T D C sd inst_num = Ok o ∧
          models st !! instrument = Some o.1).
Proof.
  intros Hnodup Hrun. rewrite fit_models_outcomes in Hrun.
  destruct (outcomes fit predict score T D C sd cm) as [os|e] eqn:Hos;
    [|discriminate].
  injection Hrun as <- _. apply outcomes_Ok in Hos.
  pose proof (Forall2_length _ _ _ Hos) as Hlen. split.
  - intros instrument. rewrite record_all_models by assumption.
    simpl. rewrite lookup_empty. split; [intros [[? [=]]|?]; assumption|auto].
  - intros instrument inst_num Hin.
    apply (record_all_models_lookup _ cm os); assumption.
Qed.

(** X13.  The three metric lists grow together: in the state the loop
    leaves, stopped or not, they have the same length, at most the number
    of classes, and [support_lst] is still empty. *)
Theorem metric_lists_grow_together (cm : list (string * nat)) :
  length (precision_lst (class_loop fit predict score T D C sd cm init_state).1)
    = length (recall_lst (class_loop fit predict score T D C sd cm init_state).1) ∧
  length (recall_lst (class_loop fit predict score T D C sd cm init_state).1)
    = length (fscore_lst (class_loop fit predict score T D C sd cm init_state).1) ∧
  length (precision_lst (class_loop fit predict score T D C sd cm init_state).1)
    ≤ length cm ∧
  support_lst (class_loop fit predict score T D C sd cm init_state).1 = [].
Proof.
  destruct (class_loop_lists cm init_state) as (n & Hn & -> & -> & -> & ->).
  simpl. repeat split; lia.
Qed.

(** X18.  With distinct names, the dictionary of classifiers is the same
    for any two orders of the classes in which the run goes through. *)
Theorem models_do_not_depend_on_class_order
    (cm cm' : list (string * nat)) (st st' : run_state model)
    (avg avg' : num * num * num) :
  cm ≡ₚ cm' → NoDup cm.*1 →
  fit_models fit predict score T D C sd cm = Ok (st, avg) →
  fit_models fit predict score T D C sd cm' = Ok (st', avg') →
  models st = models st'.
Proof.
  intros Hperm Hnodup Hrun Hrun'.
  assert (Hnodup' : NoDup cm'.*1) by (rewrite <- Hperm; exact Hnodup).
  rewrite fit_models_outcomes in Hrun, Hrun'.
  destruct (outcomes fit predict score T D C sd cm) as [os|e] eqn:Hos;
    [|discriminate].
  destruct (outcomes fit predict score T D C sd cm') as [os'|e] eqn:Hos';
    [|discriminate].
  injection Hrun as <- _. injection Hrun' as <- _.
  apply outcomes_Ok in Hos, Hos'.
  pose proof (Forall2_length _ _ _ Hos) as Hlen.
  pose proof (Forall2_length _ _ _ Hos') as Hlen'.
  apply map_eq. intros instrument.
  destruct (decide (instrument ∈ cm.*1)) as [Hin|Hnotin].
  - apply list_elem_of_fmap in Hin as ([name c] & -> & Hin). simpl.
    destruct (record_all_models_lookup init_state cm os name c Hos Hnodup Hin)
      as (o & Ho & ->).
    assert (Hin' : (name, c) ∈ cm') by (rewrite <- Hperm; exact Hin).
    destruct (record_all_models_lookup init_state cm' os' name c Hos' Hnodup' Hin')
      as (o' & Ho' & ->).
    congruence.
  - rewrite !record_all_models_notin; [reflexivity| |assumption].
    rewrite <- Hperm. assumption.
Qed.
End LoopMore.

Section LoopMoreWitnesses.
Import Numpy Pipeline Spec Demo.

Lemma class_column_out_of_range_stops_the_run_witness :
  demo_run ([("flute", 0)] ++ ("tuba", 7) :: [("piano", 1)])
  = Raise (IndexError "index is out of bounds").
Proof.
  apply (class_column_out_of_range_stops_the_run
           demo_fit demo_predict demo_score 2 2 3 demo_sd
           [("flute", 0)] "tuba" 7 [("piano", 1)]
           [(true, (q 1 4, q 1 2, q 1 3))]).
  - lia.
  - repeat constructor; by_computation.
Defined.

Lemma models_hold_the_classifier_of_each_class_witness :
  ∃ st avg, demo_run [("flute", 0); ("piano", 1)] = Ok (st, avg) ∧
    ∀ instrument,
      is_Some (models st !! instrument) ↔ instrument ∈ ["flute"; "piano"].
Proof.
  destruct (demo_run [("flute", 0); ("piano", 1)]) as [[st avg]|e] eqn:Hrun;
    [|vm_compute in Hrun; discriminate].
  exists st, avg. split; [reflexivity|].
  apply (models_hold_the_classifier_of_each_class
           demo_fit demo_predict demo_score 2 2 3 demo_sd
           [("flute", 0); ("piano", 1)] st avg).
  - by_computation.
  - exact Hrun.
Defined.

Lemma models_do_not_depend_on_class_order_witness :
  final_state (demo_run [("flute", 0); ("piano", 1)]) ≫= (λ st, Some (models st))
  = final_state (demo_run [("piano", 1); ("flute", 0)]) ≫= (λ st, Some (models st)).
Proof.
  destruct (demo_run [("flute", 0); ("piano", 1)]) as [[st avg]|e] eqn:Hrun;
    [|vm_compute in Hrun; discriminate].
  destruct (demo_run [("piano", 1); ("flute", 0)]) as [[st' avg']|e] eqn:Hrun';
    [|vm_compute in Hrun'; discriminate].
  simpl. f_equal.
  apply (models_do_not_depend_on_class_order
           demo_fit demo_predict demo_score 2 2 3 demo_sd
           [("flute", 0); ("piano", 1)] [("piano", 1); ("flute", 0)]
           st st' avg avg').
  - apply perm_swap.
  - by_computation.
  - exact Hrun.
  - exact Hrun'.
Defined.
End LoopMoreWitnesses.

(** ** Shapes and ranges of what is handed to the classifier *)

Section ShapeMore.
Import Numpy Pipeline Spec Splits.

Lemma Qc_of_nat_S n : Qc_of_nat (S n) = (Qc_of_nat n + 1)%Qc.
Proof.
  unfold Qc_of_nat. rewrite Nat2Z.inj_succ, <- Z.add_1_r, Z2Qc_inj_add, Z2Qc_inj_1.
  reflexivity.
Qed.

Lemma Qc_of_nat_pos n : 0 < n → (0 < Qc_of_nat n)%Qc.
Proof.
  intros Hn. unfold Qc_of_nat. rewrite <- Z2Qc_inj_0.
  apply (proj1 (Z2Qc_inj_lt 0 (Z.of_nat n))). lia.
Qed.

Lemma sum_Qc_replicate n x : sum_Qc (replicate n x) = (Qc_of_nat n * x)%Qc.
Proof.
  induction n as [|n IH].
  - change (sum_Qc [] = Qc_of_Z 0 * x)%Qc.
    rewrite Z2Qc_inj_0, Qcmult_0_l. reflexivity.
  - change (x + sum_Qc (replicate n x) = Qc_of_nat (S n) * x)%Qc.
    rewrite IH, Qc_of_nat_S, Qcmult_plus_distr_l, Qcmult_1_l, Qcplus_comm.
    reflexivity.
Qed.

Lemma sum_Qc_bounds lo hi xs :
  Forall (λ x, (lo ≤ x)%Qc ∧ (x ≤ hi)%Qc) xs →
  (lo * Qc_of_nat (length xs) ≤ sum_Qc xs)%Qc ∧
  (sum_Qc xs ≤ hi * Qc_of_nat (length xs))%Qc.
Proof.
  induction 1 as [|x xs [Hlo Hhi] _ [IHlo IHhi]].
  - change (lo * Qc_of_Z 0 ≤ 0 ∧ 0 ≤ hi * Qc_of_Z 0)%Qc.
    rewrite Z2Qc_inj_0, !Qcmult_0_r. split; apply Qcle_refl.
  - change (lo * Qc_of_nat (S (length xs)) ≤ x + sum_Qc xs
            ∧ x + sum_Qc xs ≤ hi * Qc_of_nat (S (length xs)))%Qc.
    rewrite Qc_of_nat_S, !Qcmult_plus_distr_r, !Qcmult_1_r.
    rewrite (Qcplus_comm (lo * _)), (Qcplus_comm (hi * _)).
    split; apply Qcplus_le_compat; assumption.
Qed.

Lemma arith_mean_bounds lo hi xs :
  xs ≠ [] →
  Forall (λ x, (lo ≤ x)%Qc ∧ (x ≤ hi)%Qc) xs →
  (lo ≤ arith_mean xs)%Qc ∧ (arith_mean xs ≤ hi)%Qc.
Proof.
  intros Hne Hxs. destruct (sum_Qc_bounds lo hi xs Hxs) as [Hlo Hhi].
  assert (Hpos : (0 < Qc_of_nat (length xs))%Qc).
  { apply Qc_of_nat_pos. destruct xs; [contradiction|simpl; lia]. }
  assert (Hmean : (arith_mean xs * Qc_of_nat (length xs))%Qc = sum_Qc xs).
  { unfold arith_mean. rewrite Qcmult_comm. apply Qcmult_div_r.
    intros Hz. rewrite Hz in Hpos. exact (Qclt_not_eq _ _ Hpos eq_refl). }
  rewrite <- Hmean in Hlo, Hhi.
  split; eapply Qcmult_lt_0_le_reg_r; eassumption.
Qed.

Lemma feature_over_time_replicate T v i x :
  v !! i = Some x → feature_over_time (replicate T v) i = Some (replicate T x).
Proof.
  intros Hx. unfold feature_over_time. apply mapM_Some.
  induction T as [|T IH]; simpl; constructor; assumption.
Qed.

(** X11.  For a class column, the features and the labels handed to [fit]
    have one row per annotated clip of the train indices, and those handed
    to [predict] and to the scorer one per annotated clip of the test
    indices; a side without annotated clips gives empty arrays, and no
    error from numpy. *)
Theorem features_and_labels_have_one_row_per_annotated_clip
    (ds : dataset) (idx_train idx_test : list nat) (sd : split_data)
    (T D C c : nat) (d : class_data) :
  slice ds idx_train idx_test = Ok sd →
  prepare T D C sd c = Ok d →
  length (X_train_inst_sklearn d) = length (annotated_rows ds c idx_train) ∧
  length (Y_true_train_inst d) = length (annotated_rows ds c idx_train) ∧
  length (X_test_inst_sklearn d) = length (annotated_rows ds c idx_test) ∧
  length (Y_true_test_inst d) = length (annotated_rows ds c idx_test) ∧
  (annotated_rows ds c idx_train = [] →
     X_train_inst_sklearn d = [] ∧ Y_true_train_inst d = []) ∧
  (annotated_rows ds c idx_test = [] →
     X_test_inst_sklearn d = [] ∧ Y_true_test_inst d = []).
Proof.
  intros Hslice Hprep.
  destruct (prepare_spec ds idx_train idx_test sd T D C c d Hslice Hprep)
    as ((_ & Hx1 & Hy1) & (_ & Hx2 & Hy2)).
  apply Forall2_length in Hx1, Hy1, Hx2, Hy2.
  split; [auto|]. split; [auto|]. split; [auto|]. split; [auto|].
  split; intros Hnil; rewrite Hnil in *; simpl in *;
    split; apply nil_length_inv; auto.
Qed.

Lemma features_and_labels_have_one_row_per_annotated_clip_witness :
  length (X_train_inst_sklearn (Demo.demo_class 2)) = 0 ∧
  length (X_test_inst_sklearn (Demo.demo_class 2)) = 2.
Proof.
  destruct (features_and_labels_have_one_row_per_annotated_clip
              Demo.demo_ds [0; 2] [1; 3] Demo.demo_sd 2 2 3 2 (Demo.demo_class 2))
    as (H1 & _ & H3 & _).
  - by_computation.
  - by_computation.
  - split; [exact H1|exact H3].
Defined.

(** X15.  A clip whose T > 0 slices are all the same vector of whole
    numbers (as the stored features are) reduces to that vector; the
    bound on T keeps every partial sum exact in float64. *)
Theorem mean_of_a_repeated_slice (T D : nat) (lo hi : Z) (v : list Qc) :
  0 < T → length v = D →
  Forall (Reordering.integer_between lo hi) v →
  Reordering.exactly_summable T lo hi →
  mean_over_time T D (replicate T v) = Num <$> v.
Proof.
  intros HT Hv _ _. apply list_eq. intros i.
  assert (Hshape : Forall (λ u : list Qc, length u = D) (replicate T v))
    by (apply Forall_replicate; exact Hv).
  destruct (decide (i < D)) as [Hi|Hi].
  - destruct (mean_over_time_spec T D (replicate T v) i HT
                (length_replicate _ _) Hshape Hi) as (col & Hcol & _ & ->).
    destruct (lookup_lt_is_Some_2 v i ltac:(lia)) as [x Hx].
    rewrite (feature_over_time_replicate T v i x Hx) in Hcol.
    injection Hcol as <-.
    rewrite list_lookup_fmap, Hx. simpl. do 2 f_equal.
    unfold arith_mean. rewrite sum_Qc_replicate, length_replicate, Qcmult_comm.
    apply Qcdiv_mult_l. intros Hz.
    pose proof (Qc_of_nat_pos T HT) as Hpos. rewrite Hz in Hpos.
    exact (Qclt_not_eq _ _ Hpos eq_refl).
  - rewrite !lookup_ge_None_2; [reflexivity| |].
    + rewrite length_fmap. lia.
    + rewrite mean_over_time_length by assumption. lia.
Qed.

Lemma mean_of_a_repeated_slice_witness :
  mean_over_time 3 2 (replicate 3 [Demo.q 7 1; Demo.q 200 1])
  = Num <$> [Demo.q 7 1; Demo.q 200 1].
Proof.
  apply (mean_of_a_repeated_slice 3 2 0 255 [Demo.q 7 1; Demo.q 200 1]).
  - lia.
  - reflexivity.
  - repeat constructor.
    + exists 7%Z. split; [lia|by_computation].
    + exists 200%Z. split; [lia|by_computation].
  - reflexivity.
Defined.

(** X16.  The reduced features stay in the range of the raw ones: when
    the features of a clip of T > 0 slices are whole numbers between [lo]
    and [hi] (as the stored features are, between 0 and 255), every
    component of its mean lies between [lo] and [hi]; the bound on T
    keeps the sums exact in float64. *)
Theorem mean_stays_within_the_feature_range
    (T D : nat) (clip : list (list Qc)) (lo hi : Z) (i : nat) :
  0 < T → length clip = T →
  Forall (λ v, length v = D) clip →
  Forall (Forall (Reordering.integer_between lo hi)) clip →
  Reordering.exactly_summable T lo hi →
  i < D →
  ∃ m, mean_over_time T D clip !! i = Some (Num m) ∧
       (Qc_of_Z lo ≤ m)%Qc ∧ (m ≤ Qc_of_Z hi)%Qc.
Proof.
  intros HT Hlen Hshape Hrange _ Hi.
  destruct (mean_over_time_spec T D clip i HT Hlen Hshape Hi)
    as (col & Hcol & Hlcol & Hmean).
  exists (arith_mean col). split; [exact Hmean|].
  apply arith_mean_bounds.
  - intros ->. simpl in Hlcol. lia.
  - unfold feature_over_time in Hcol. apply mapM_Some in Hcol.
    clear Hmean Hlcol Hlen Hshape.
    induction Hcol as [|v x clip col Hx _ IH]; [constructor|].
    apply Forall_cons in Hrange as [Hv Hrange].
    constructor; [|apply IH, Hrange].
    rewrite Forall_forall in Hv.
    destruct (Hv x) as (z & [Hlo Hhi] & ->).
    + apply list_elem_of_lookup. eauto.
    + split; apply (proj1 (Z2Qc_inj_le _ _)); assumption.
Qed.

Lemma mean_stays_within_the_feature_range_witness :
  ∃ m, mean_over_time 2 2 [[Demo.q 0 1; Demo.q 2 1]; [Demo.q 4 1; Demo.q 255 1]] !! 1
       = Some (Num m) ∧
       (Qc_of_Z 0 ≤ m)%Qc ∧ (m ≤ Qc_of_Z 255)%Qc.
Proof.
  apply (mean_stays_within_the_feature_range 2 2
           [[Demo.q 0 1; Demo.q 2 1]; [Demo.q 4 1; Demo.q 255 1]] 0 255 1).
  - lia.
  - reflexivity.
  - by_computation.
  - repeat constructor.
    + exists 0%Z. split; [lia|by_computation].
    + exists 2%Z. split; [lia|by_computation].
    + exists 4%Z. split; [lia|by_computation].
    + exists 255%Z. split; [lia|by_computation].
  - reflexivity.
  - lia.
Defined.
End ShapeMore.

Section RangeMore.
Import Numpy Pipeline Spec Splits.
Context {model : Type}.
Variable fit : list (list num) → list bool → result model.
Variable predict : model → list (list num) → result (list bool).
Variable score : list bool → list bool → result (Qc * Qc * Qc * support_t).
Variables T D C : nat.
Variable sd : split_data.

(** X17.  When the scorer only returns scores between 0 and 1, as
    precision, recall and F1 are, the three averages printed by a run over
    at least one class lie between 0 and 1 as well. *)
Theorem averages_stay_within_the_score_range
    (cm : list (string * nat)) (st : run_state model) (p r f : num) :
  cm ≠ [] →
  (∀ y_true y_pred a b c s,
     score y_true y_pred = Ok (a, b, c, s) →
     ((0 ≤ a)%Qc ∧ (a ≤ 1)%Qc) ∧ ((0 ≤ b)%Qc ∧ (b ≤ 1)%Qc) ∧
     ((0 ≤ c)%Qc ∧ (c ≤ 1)%Qc)) →
  fit_models fit predict score T D C sd cm = Ok (st, (p, r, f)) →
  within 0%Qc 1%Qc p ∧ within 0%Qc 1%Qc r ∧ within 0%Qc 1%Qc f.
Proof.
  intros Hne Hscore Hrun. rewrite fit_models_outcomes in Hrun.
  destruct (outcomes fit predict score T D C sd cm) as [os|e] eqn:Hos;
    [|discriminate].
  apply outcomes_Ok in Hos. pose proof (Forall2_length _ _ _ Hos) as Hlen.
  rewrite averages_record_all in Hrun by assumption.
  injection Hrun as _ <- <- <-.
  assert (Hne' : os ≠ []) by (intros ->; destruct cm; [contradiction|discriminate]).
  assert (Hall : Forall (λ o, ((0 ≤ precision_of o)%Qc ∧ (precision_of o ≤ 1)%Qc) ∧
                              ((0 ≤ recall_of o)%Qc ∧ (recall_of o ≤ 1)%Qc) ∧
                              ((0 ≤ fscore_of o)%Qc ∧ (fscore_of o ≤ 1)%Qc)) os).
  { clear Hlen Hne Hne'. induction Hos as [|item o cm os Ho _ IH]; constructor;
      [|exact IH].
    apply class_outcome_scores in Ho as (t & y & s & Hs).
    exact (Hscore _ _ _ _ _ _ Hs). }
  assert (Hmean : ∀ g : model * (Qc * Qc * Qc) → Qc,
            Forall (λ o, (0 ≤ g o)%Qc ∧ (g o ≤ 1)%Qc) os →
            within 0%Qc 1%Qc (np_mean (g <$> os))).
  { intros g Hg. rewrite np_mean_arith_mean
      by (destruct os; [contradiction|discriminate]).
    simpl. apply arith_mean_bounds.
    - destruct os; [contradiction|discriminate].
    - apply Forall_fmap. exact Hg. }
  split; [|split]; apply Hmean; (eapply Forall_impl; [exact Hall|]);
    intros o (Hp & Hr & Hf); assumption.
Qed.
End RangeMore.

Section RangeMoreWitnesses.
Import Numpy Pipeline Spec Splits Demo.

Lemma averages_stay_within_the_score_range_witness :
  ∃ st p r f,
    fit_models demo_fit demo_predict
      (λ _ _, Ok (q 1 4, q 1 2, q 1 1, None)) 2 2 3 demo_sd
      [("flute", 0); ("piano", 1)] = Ok (st, (p, r, f)) ∧
    within 0%Qc 1%Qc p ∧ within 0%Qc 1%Qc r ∧ within 0%Qc 1%Qc f.
Proof.
  destruct (fit_models demo_fit demo_predict
              (λ _ _, Ok (q 1 4, q 1 2, q 1 1, None)) 2 2 3 demo_sd
              [("flute", 0); ("piano", 1)]) as [[st [[p r] f]]|e] eqn:Hrun;
    [|vm_compute in Hrun; discriminate].
  exists st, p, r, f. split; [reflexivity|].
  apply (averages_stay_within_the_score_range
           demo_fit demo_predict (λ _ _, Ok (q 1 4, q 1 2, q 1 1, None))
           2 2 3 demo_sd [("flute", 0); ("piano", 1)] st p r f).
  - discriminate.
  - intros y_true y_pred a b c s [= <- <- <- <-].
    repeat split; by_computation.
  - exact Hrun.
Defined.
End RangeMoreWitnesses.
